(** * homegit: a shallow embedding of [src/homegit.py]

    The script keeps bare git repositories under a storage root and
    forwards every unrecognised sub-command to git.  This development
    embeds the script as Rocq functions over an explicit model of what the
    script talks to (environment variables, [sys.argv], the file system,
    the external executable) and proves the properties of its command
    classifier, its life-cycle handlers and its pass-through path. *)

From Stdlib Require Import ZArith Ascii String Strings.Byte.
From stdpp Require Import gmap strings list fin_maps.

Local Open Scope string_scope.
Local Open Scope Z_scope.

(** ** Strings as Python has them *)

Module PyStr.

(** The double-quote character, ASCII 34. *)
Definition dquote_char : ascii :=
  Ascii false true false false false true false false.
Definition dquote : string := String dquote_char EmptyString.

Definition slash : ascii := Ascii true true true true false true false false.
Definition space : ascii := Ascii false false false false false true false false.

(** [str.lower] on ASCII text: the capital letters move down by 32. *)
Definition lower_char (c : ascii) : ascii :=
  let n := N_of_ascii c in
  if ((65 <=? n)%N && (n <=? 90)%N)%bool then ascii_of_N (n + 32) else c.

Fixpoint lower (s : string) : string :=
  match s with
  | EmptyString => EmptyString
  | String c s' => String (lower_char c) (lower s')
  end.

(** [c in s] for a one-character needle. *)
Fixpoint contains_char (c : ascii) (s : string) : bool :=
  match s with
  | EmptyString => false
  | String d s' => if Ascii.eqb c d then true else contains_char c s'
  end.

(** [sep.join(parts)] *)
Fixpoint join (sep : string) (parts : list string) : string :=
  match parts with
  | [] => EmptyString
  | [p] => p
  | p :: ps => p ++ sep ++ join sep ps
  end.

(** [s.split(c)]: always at least one field; empty fields are kept. *)
Fixpoint split (c : ascii) (s : string) : list string :=
  match s with
  | EmptyString => [EmptyString]
  | String d s' =>
      if Ascii.eqb c d then EmptyString :: split c s'
      else match split c s' with
           | [] => [String d EmptyString]
           | f :: fs => String d f :: fs
           end
  end.

(** [s.startswith(p)] *)
Fixpoint startswith (p s : string) : bool :=
  match p, s with
  | EmptyString, _ => true
  | String a p', String b s' => if Ascii.eqb a b then startswith p' s' else false
  | String _ _, EmptyString => false
  end.

(** [s.endswith(c)] for a one-character suffix. *)
Fixpoint endswith_char (c : ascii) (s : string) : bool :=
  match s with
  | EmptyString => false
  | String d EmptyString => Ascii.eqb c d
  | String _ s' => endswith_char c s'
  end.

(** The longest common prefix of two strings, character by character. *)
Fixpoint common2 (a b : string) : string :=
  match a, b with
  | String x a', String y b' =>
      if Ascii.eqb x y then String x (common2 a' b') else EmptyString
  | _, _ => EmptyString
  end.

(** [f"{x}"] of a value that may be [None]. *)
Definition fmt (o : option string) : string :=
  match o with
  | Some s => s
  | None => "None"
  end.

End PyStr.

(** ** [os.path] on POSIX *)

Module PosixPath.
Import PyStr.

Definition sep : string := String slash EmptyString.

(** [os.path.commonprefix]: the longest string that is a prefix, character
    by character, of every element of the list. *)
Definition commonprefix (m : list string) : string :=
  match m with
  | [] => EmptyString
  | p :: ps => fold_left common2 ps p
  end.

(** [os.path.join(a, b)] *)
Definition join2 (a b : string) : string :=
  if startswith sep b then b
  else if (String.eqb a EmptyString || endswith_char slash a)%bool then a ++ b
  else a ++ sep ++ b.

(** The loop of [os.path.normpath] over the fields of the path:
    [initial] tells whether the path is rooted, [acc] is [new_comps]. *)
Fixpoint norm_comps (initial : bool) (acc comps : list string) : list string :=
  match comps with
  | [] => acc
  | comp :: rest =>
      if (String.eqb comp EmptyString || String.eqb comp ".")%bool
      then norm_comps initial acc rest
      else if (negb (String.eqb comp "..")
               || (negb initial && bool_decide (acc = []))
               || match last acc with
                  | Some l => String.eqb l ".."
                  | None => false
                  end)%bool
      then norm_comps initial (acc ++ [comp]) rest
      else norm_comps initial (removelast acc) rest
  end.

(** [os.path.normpath]: the number of leading slashes kept is 0, 1, or 2
    (exactly two leading slashes are kept as they are). *)
Definition normpath (path : string) : string :=
  if String.eqb path EmptyString then "."
  else
    let initial_slashes : nat :=
      if startswith sep path then
        if (startswith (sep ++ sep) path
            && negb (startswith (sep ++ sep ++ sep) path))%bool
        then 2%nat else 1%nat
      else 0%nat in
    let comps := norm_comps (negb (Nat.eqb initial_slashes 0)) [] (split slash path) in
    let body := join sep comps in
    let res :=
      match initial_slashes with
      | O => body
      | S O => sep ++ body
      | _ => sep ++ sep ++ body
      end in
    if String.eqb res EmptyString then "." else res.

(** [os.path.abspath], relative to the working directory [cwd]. *)
Definition abspath (cwd path : string) : string :=
  normpath (if startswith sep path then path else join2 cwd path).

(** The directories named on the way to a normalised absolute path. *)
Definition components (path : string) : list string :=
  filter (λ c, c ≠ EmptyString) (split slash path).

End PosixPath.

(** ** Python values and exceptions *)

(** The argument of [sys.exit]: an integer status, or a message that is
    written to the error stream (the status is then 1). *)
Inductive exit_arg : Type :=
  | ExitCode (n : Z)
  | ExitMsg (msg : string).

(** The exceptions the script defines, and those of the interpreter and
    of the library calls it makes. *)
Inductive exn : Type :=
  | ExistingRepoDir
  | MissingRepoDir
  | CloneFailure
  | InitFailure
  | SettingShowUntrackedFilesFailure
  | FileNotFoundError
  | FileExistsError
  | NotADirectoryError
  | CalledProcessError (returncode : Z)
  | SystemExit (a : exit_arg)
  | ValueError
  | TypeError
  | IndexError.

(** What a Python variable of the script may hold where the type matters:
    [None], a [str], or a [bytes] object. *)
Inductive pyval : Type :=
  | PyNone
  | PyStr (s : string)
  | PyBytes (b : list byte).

Fixpoint bytes_eqb (a b : list byte) : bool :=
  match a, b with
  | [], [] => true
  | x :: a', y :: b' => Byte.eqb x y && bytes_eqb a' b'
  | _, _ => false
  end.

(** Python's [==]: objects of different types are never equal, in
    particular a [bytes] object never equals a [str]. *)
Definition py_eq (a b : pyval) : bool :=
  match a, b with
  | PyNone, PyNone => true
  | PyStr x, PyStr y => String.eqb x y
  | PyBytes x, PyBytes y => bytes_eqb x y
  | _, _ => false
  end.

(** [x or d] on a string that may be missing: [None] and the empty string
    are both false. *)
Definition py_or (o : option string) (d : string) : string :=
  match o with
  | Some s => if String.eqb s EmptyString then d else s
  | None => d
  end.

(** ** The file system *)

Module FS.

Inductive node : Type := Dir | File.

(** A tree of directories and files, keyed by the components of the
    absolute path; the root is always a directory.  Symbolic links and
    permissions are not modelled. *)
Definition t : Type := gmap (list string) node.

Definition node_at (fs : t) (p : list string) : option node :=
  match p with
  | [] => Some Dir
  | _ => fs !! p
  end.

Definition isdir (fs : t) (p : list string) : bool :=
  match node_at fs p with
  | Some Dir => true
  | _ => false
  end.

(** [os.mkdir]: the path must be free and its parent a directory. *)
Definition mkdir (fs : t) (p : list string) : exn + t :=
  match node_at fs p with
  | Some _ => inl FileExistsError
  | None =>
      match node_at fs (removelast p) with
      | Some Dir => inr (<[p := Dir]> fs)
      | Some File => inl NotADirectoryError
      | None => inl FileNotFoundError
      end
  end.

(** [shutil.rmtree]: the directory and everything below it goes. *)
Definition rmtree (fs : t) (p : list string) : exn + t :=
  match node_at fs p with
  | None => inl FileNotFoundError
  | Some File => inl NotADirectoryError
  | Some Dir => inr (filter (λ kv, ¬ p `prefix_of` kv.1) fs)
  end.

End FS.

(** ** The world the script runs in *)

(** What the external executable did: its exit status, what it wrote to
    its standard output, and the file system it left. *)
Record ToolResult : Type := {
  tr_returncode : Z;
  tr_stdout : list byte;
  tr_fs : FS.t
}.

(** Everything the script reads but does not own.  The external
    executable is opaque: [tool] gives what it does for an argument
    vector started in a working directory on a file system, and
    [can_exec] tells whether a program path can be launched at all. *)
Record World : Type := {
  environ : gmap string string;
  which_git : option string;
  argv : list string;
  getcwd : string;
  can_exec : string → bool;
  tool : list string → string → FS.t → ToolResult
}.

(** What the script did to the outside: the calls that look at or change
    the repository store, and the calls of [subprocess.run]. *)
Inductive Event : Type :=
  | EvIsdir (path : string)
  | EvMkdir (path : string)
  | EvRmtree (path : string)
  | EvRun (args : list string) (cwd : option string).

Record State : Type := {
  st_fs : FS.t;
  st_stdout : list string;
  st_events : list Event
}.

(** ** A state and exception monad for the script *)

Definition M (A : Type) : Type := State → (A + exn) * State.

Definition ret {A} (a : A) : M A := λ st, (inl a, st).

Definition bind {A B} (m : M A) (k : A → M B) : M B :=
  λ st, match m st with
        | (inl a, st') => k a st'
        | (inr e, st') => (inr e, st')
        end.

Definition raise {A} (e : exn) : M A := λ st, (inr e, st).

(** [try: m  except ...: h e]; a handler that does not know the exception
    raises it again. *)
Definition try_except {A} (m : M A) (h : exn → M A) : M A :=
  λ st, match m st with
        | (inl a, st') => (inl a, st')
        | (inr e, st') => h e st'
        end.

#[global] Instance M_ret : MRet M := @ret.
#[global] Instance M_bind : MBind M := λ A B k m, bind m k.

Definition with_fs (fs : FS.t) (st : State) : State :=
  {| st_fs := fs; st_stdout := st_stdout st; st_events := st_events st |}.

Definition with_lines (lines : list string) (st : State) : State :=
  {| st_fs := st_fs st; st_stdout := st_stdout st ++ lines; st_events := st_events st |}.

Definition with_events (evs : list Event) (st : State) : State :=
  {| st_fs := st_fs st; st_stdout := st_stdout st; st_events := st_events st ++ evs |}.

Definition get_fs : M FS.t := λ st, (inl (st_fs st), st).

Definition put_fs (fs : FS.t) : M unit := λ st, (inl tt, with_fs fs st).

Definition log (ev : Event) : M unit := λ st, (inl tt, with_events [ev] st).

(** [print(line)] *)
Definition print (line : string) : M unit := λ st, (inl tt, with_lines [line] st).

(** [sys.exit(a)] *)
Definition sys_exit {A} (a : exit_arg) : M A := raise (SystemExit a).

(** [for x in xs: body(x)] *)
Fixpoint for_each {A} (xs : list A) (body : A → M unit) : M unit :=
  match xs with
  | [] => mret tt
  | x :: xs' => body x;; for_each xs' body
  end.

(** [if b: body] *)
Definition when (b : bool) (body : M unit) : M unit :=
  if b then body else mret tt.

(** How the process ends: status 0 on a normal return, the status given
    to [sys.exit] (the low eight bits), and 1 for [sys.exit] with a
    message and for every exception nobody caught. *)
Definition exit_status (r : unit + exn) : Z :=
  match r with
  | inl _ => 0
  | inr (SystemExit (ExitCode n)) => Z.land n 255
  | inr _ => 1
  end.

(** ** The script *)

(** [Command = Enum('Command', COMMANDS + ['GIT'])] *)
Inductive Command : Type := INIT | CLONE | HELP | VERSION | UNTRACK | GIT.

#[global] Instance Command_eq_dec : EqDecision Command.
Proof. solve_decision. Defined.

Definition COMMANDS : list string := ["INIT"; "CLONE"; "HELP"; "VERSION"; "UNTRACK"].

Definition Command_name (c : Command) : string :=
  match c with
  | INIT => "INIT"
  | CLONE => "CLONE"
  | HELP => "HELP"
  | VERSION => "VERSION"
  | UNTRACK => "UNTRACK"
  | GIT => "GIT"
  end.

(** [Command[name]]: the member of that name, if there is one. *)
Definition Command_getitem (name : string) : option Command :=
  find (λ c, String.eqb (Command_name c) name) [INIT; CLONE; HELP; VERSION; UNTRACK; GIT].

Definition CONVENIENCE_COMMANDS : list (string * Command) :=
  [("--version", VERSION); ("-v", VERSION); ("--help", HELP); ("-h", HELP)].

(** [dict(pairs)]: a later pair replaces an earlier one with the same key. *)
Definition py_dict (pairs : list (string * Command)) : gmap string Command :=
  fold_left (λ m kv, <[kv.1 := kv.2]> m) pairs ∅.

Definition command_dict : gmap string Command :=
  py_dict (app (omap (λ cmd, c ← Command_getitem cmd; Some (PyStr.lower cmd, c)) COMMANDS)
               CONVENIENCE_COMMANDS).

Definition IGNORED_ARGS : list string := ["--bare"; "--git-dir"; "--work-tree"].

Definition version : string := "0.1.4".

Record ParsedCommand : Type := {
  command : option Command;
  ignored_args : gset string
}.

(** [ShellProcess] is declared by the script and never built; what
    [subprocess.run] returns is a [CompletedProcess]: the captured
    standard output ([None] unless it was captured) and the exit status. *)
Record CompletedProcess : Type := {
  cp_stdout : option (list byte);
  cp_returncode : Z
}.

(** The keyword arguments of [run] that change what it does.  The stream
    arguments ([stdin], [stdout], [stderr]) only attach the child to the
    streams of the script and are left out. *)
Record RunKwargs : Type := {
  kw_cwd : option string;
  kw_check : option bool;
  kw_capture_output : bool
}.

Definition no_kwargs : RunKwargs :=
  {| kw_cwd := None; kw_check := None; kw_capture_output := false |}.

(** The line [main] prints for an ignored argument. *)
Definition ignoring_line (arg : string) : string :=
  "Ignoring " ++ PyStr.dquote ++ arg ++ PyStr.dquote ++ " argument".

Section Script.

Context (w : World).

(** *** Module-level configuration *)

Definition HOME : option string := environ w !! "HOME".

Definition VERBOSE : bool := bool_decide (environ w !! "VERBOSE" = Some "true").

Definition GIT_EXECUTABLE : option string :=
  match environ w !! "GIT_EXECUTABLE" with
  | Some s => if String.eqb s EmptyString then which_git w else Some s
  | None => which_git w
  end.

Definition HOMEGIT_DIR : string :=
  py_or (environ w !! "HOMEGIT_DIR") (PyStr.fmt HOME ++ "/.homegit").

Definition HOMEGIT_REPO : string := py_or (environ w !! "HOMEGIT_REPO") "default".

Definition BARE_REPO_DIR : string := HOMEGIT_DIR ++ "/" ++ HOMEGIT_REPO.

(** *** The operating system under the script *)

(** Where a path written in the script leads, from the working directory
    of the script. *)
Definition resolve (path : string) : list string :=
  PosixPath.components (PosixPath.abspath (getcwd w) path).

Definition os_path_isdir (path : string) : M bool :=
  log (EvIsdir path);;
  fs ← get_fs;
  mret (FS.isdir fs (resolve path)).

Definition os_mkdir (path : string) : M unit :=
  log (EvMkdir path);;
  fs ← get_fs;
  match FS.mkdir fs (resolve path) with
  | inl e => raise e
  | inr fs' => put_fs fs'
  end.

Definition shutil_rmtree (path : string) : M unit :=
  log (EvRmtree path);;
  fs ← get_fs;
  match FS.rmtree fs (resolve path) with
  | inl e => raise e
  | inr fs' => put_fs fs'
  end.

(** The argument vector as strings, when no element is [None]. *)
Definition as_strings (command : list (option string)) : option (list string) :=
  mapM id command.

(** Why a child process cannot be started: its working directory, when
    one is given, must be a directory, and the program must be one that
    can be launched. *)
Definition launch_error (fs : FS.t) (cwd : option string) (exe : string) : option exn :=
  match cwd with
  | Some d =>
      match FS.node_at fs (resolve d) with
      | Some FS.Dir => if can_exec w exe then None else Some FileNotFoundError
      | Some FS.File => Some NotADirectoryError
      | None => Some FileNotFoundError
      end
  | None => if can_exec w exe then None else Some FileNotFoundError
  end.

(** [subprocess.run(command, cwd=..., check=..., capture_output=...)].
    An argument that is [None] is a [TypeError]; a child that cannot be
    started is the error of the launch; otherwise the executable runs in
    the working directory given, or in the one of the script, and with
    [check] a status other than 0 raises [CalledProcessError]. *)
Definition subprocess_run (command : list (option string)) (kw : RunKwargs)
    : M CompletedProcess :=
  match as_strings command with
  | None => raise TypeError
  | Some [] => raise IndexError
  | Some (exe :: rest) =>
      log (EvRun (exe :: rest) (kw_cwd kw));;
      fs ← get_fs;
      match launch_error fs (kw_cwd kw) exe with
      | Some e => raise e
      | None =>
          let r := tool w (exe :: rest) (default (getcwd w) (kw_cwd kw)) fs in
          put_fs (tr_fs r);;
          if (default false (kw_check kw) && negb (tr_returncode r =? 0))%bool
          then raise (CalledProcessError (tr_returncode r))
          else mret {| cp_stdout := if kw_capture_output kw then Some (tr_stdout r) else None;
                       cp_returncode := tr_returncode r |}
      end
  end.

(** *** The functions of the script, in the order of the source *)

Definition naively_escaped (arg : string) : string :=
  if negb (PyStr.contains_char PyStr.space arg) then arg
  else PyStr.dquote ++ arg ++ PyStr.dquote.

Definition run (command : list (option string)) (kw : RunKwargs) : M CompletedProcess :=
  when VERBOSE
    match as_strings command with
    | None => raise TypeError
    | Some args => print ("Running: " ++ PyStr.join " " (map naively_escaped args))
    end;;
  subprocess_run command
    {| kw_cwd := kw_cwd kw;
       kw_check := Some (default true (kw_check kw));
       kw_capture_output := kw_capture_output kw |}.

Definition is_within_home_dir : M bool :=
  match HOME with
  | None => raise TypeError
  | Some h =>
      let home := PosixPath.abspath (getcwd w) h in
      mret (String.eqb (PosixPath.commonprefix [getcwd w; home]) home)
  end.

Definition get_remote_origin_url : M pyval :=
  let command :=
    [GIT_EXECUTABLE;
     Some ("--git-dir=" ++ BARE_REPO_DIR);
     Some ("--work-tree=" ++ PyStr.fmt HOME);
     Some "config"; Some "--get"; Some "remote.origin.url"] in
  completed_process ←
    run command {| kw_cwd := None; kw_check := Some false; kw_capture_output := true |};
  mret (if cp_returncode completed_process =? 0
        then match cp_stdout completed_process with
             | Some b => PyBytes b
             | None => PyNone
             end
        else PyNone).

Definition bare_repo_dir_exists : M bool := os_path_isdir BARE_REPO_DIR.

Definition friendly_error_messages {A} (body : M A) : M A :=
  try_except body (λ e,
    match e with
    | CloneFailure =>
        sys_exit (ExitMsg ("Error cloning repo (" ++ HOMEGIT_REPO ++ ")"))
    | ExistingRepoDir =>
        sys_exit (ExitMsg ("Existing repo: " ++ HOMEGIT_REPO ++ " (" ++ BARE_REPO_DIR ++ ")"))
    | FileNotFoundError =>
        sys_exit (ExitMsg ("Error executing git: No such file or directory: "
                           ++ PyStr.fmt GIT_EXECUTABLE))
    | InitFailure =>
        sys_exit (ExitMsg ("Error initializing repo (" ++ HOMEGIT_REPO ++ ")"))
    | SettingShowUntrackedFilesFailure =>
        sys_exit (ExitMsg ("Error setting status.showUntrackedFiles for " ++ HOMEGIT_REPO))
    | _ => raise e
    end).

Definition checkout_repo : M bool :=
  let command :=
    [GIT_EXECUTABLE;
     Some ("--git-dir=" ++ BARE_REPO_DIR);
     Some ("--work-tree=" ++ PyStr.fmt HOME);
     Some "checkout"] in
  completed_process ←
    run command {| kw_cwd := None; kw_check := Some false; kw_capture_output := false |};
  mret (cp_returncode completed_process =? 0).

Definition clone_repo (git_repo_url : string) : M unit :=
  dir_exists ← bare_repo_dir_exists;
  existing_repo_url ← (if dir_exists : bool then get_remote_origin_url else mret PyNone);
  when dir_exists
    (when (negb (py_eq existing_repo_url (PyStr git_repo_url)))
       (raise ExistingRepoDir));;
  when (py_eq existing_repo_url (PyStr git_repo_url))
    (print ("Repo (" ++ HOMEGIT_REPO ++ ") is already cloned");;
     sys_exit (ExitCode 0));;
  try_except (os_mkdir HOMEGIT_DIR) (λ e,
    match e with
    | FileExistsError => mret tt
    | _ => raise e
    end);;
  os_mkdir BARE_REPO_DIR;;
  let command :=
    [GIT_EXECUTABLE; Some "clone"; Some "--bare"; Some git_repo_url; Some BARE_REPO_DIR] in
  completed_process ←
    try_except (run command no_kwargs) (λ e,
      match e with
      | CalledProcessError _ => raise CloneFailure
      | _ => raise e
      end);
  when (negb (cp_returncode completed_process =? 0)) (raise CloneFailure).

Definition init_repo : M unit :=
  dir_exists ← bare_repo_dir_exists;
  when dir_exists (raise ExistingRepoDir);;
  let command := [GIT_EXECUTABLE; Some "init"; Some "--bare"; Some BARE_REPO_DIR] in
  completed_process ←
    try_except
      (run command {| kw_cwd := Some HOMEGIT_DIR; kw_check := None;
                      kw_capture_output := false |})
      (λ e,
        match e with
        | CalledProcessError _ => raise InitFailure
        | _ => raise e
        end);
  when (negb (cp_returncode completed_process =? 0)) (raise InitFailure).

Definition do_not_show_untracked_files : M unit :=
  let command :=
    [GIT_EXECUTABLE;
     Some ("--git-dir=" ++ BARE_REPO_DIR);
     Some ("--work-tree=" ++ PyStr.fmt HOME);
     Some "config"; Some "--local"; Some "status.showUntrackedFiles"; Some "no"] in
  completed_process ←
    try_except
      (run command {| kw_cwd := Some HOMEGIT_DIR; kw_check := None;
                      kw_capture_output := false |})
      (λ e,
        match e with
        | CalledProcessError _ => raise SettingShowUntrackedFilesFailure
        | _ => raise e
        end);
  when (negb (cp_returncode completed_process =? 0))
    (raise SettingShowUntrackedFilesFailure).

Definition run_version : M unit :=
  print ("homegit version " ++ version);;
  let command := [GIT_EXECUTABLE; Some "--version"] in
  run command {| kw_cwd := None; kw_check := Some false; kw_capture_output := false |};;
  mret tt.

Definition run_help : M unit :=
  print "Usage:";;
  print "homegit init";;
  print "homegit untrack";;
  print "homegit clone <repository_url>";;
  print "homegit [standard git commands and arguments...]".

Definition run_init : M unit :=
  friendly_error_messages
    (init_repo;;
     do_not_show_untracked_files;;
     print ("Initialized " ++ HOMEGIT_REPO ++ " repo")).

Definition run_clone : M unit :=
  match argv w with
  | [_exec; _cmd; git_repo_url] =>
      friendly_error_messages
        (clone_repo git_repo_url;;
         do_not_show_untracked_files;;
         checked_out ← checkout_repo;
         when (negb checked_out)
           (print ("Warning: could not checkout latest changes (" ++ HOMEGIT_REPO ++ ")"));;
         print ("Cloned " ++ HOMEGIT_REPO ++ " repo"))
  | _ => raise ValueError
  end.

Definition run_untrack : M unit :=
  shutil_rmtree BARE_REPO_DIR;;
  print ("Stopped tracking homegit repo at " ++ BARE_REPO_DIR).

Definition run_git : M unit :=
  dir_exists ← bare_repo_dir_exists;
  when (negb dir_exists)
    (sys_exit (ExitMsg ("Unknown repo: " ++ HOMEGIT_REPO ++ " (" ++ BARE_REPO_DIR ++ ")")));;
  within ← is_within_home_dir;
  when (negb within)
    (let cwd := getcwd w in
     sys_exit (ExitMsg ("The current working directory must be run within the "
                        ++ PyStr.fmt HOME ++ " directory (" ++ cwd ++ ")")));;
  let command :=
    app [GIT_EXECUTABLE;
         Some ("--git-dir=" ++ BARE_REPO_DIR);
         Some ("--work-tree=" ++ PyStr.fmt HOME)]
        (map Some (tail (argv w))) in
  completed_process ←
    friendly_error_messages
      (try_except (run command no_kwargs) (λ e,
         match e with
         | CalledProcessError _ => raise SettingShowUntrackedFilesFailure
         | _ => raise e
         end));
  sys_exit (ExitCode (cp_returncode completed_process)).

Definition parse_command : ParsedCommand :=
  {| command :=
       if bool_decide (1 < length (argv w))%nat
       then Some (default GIT (command_dict !! default EmptyString (argv w !! 1%nat)))
       else None;
     ignored_args :=
       list_to_set (filter (λ arg, arg ∈ IGNORED_ARGS) (argv w)) |}.

(** What [main] does once the command is known. *)
Definition dispatch (c : option Command) : M unit :=
  match c with
  | None | Some HELP => run_help
  | Some VERSION => run_version
  | Some INIT => run_init
  | Some CLONE => run_clone
  | Some UNTRACK => run_untrack
  | Some GIT => run_git
  end.

Definition main : M unit :=
  when (bool_decide (HOME = None))
    (sys_exit (ExitMsg "You must set a value of the HOME environment vairable"));;
  let parsed_command := parse_command in
  for_each (elements (ignored_args parsed_command)) (λ ignored_arg,
    print (ignoring_line ignored_arg));;
  dispatch (command parsed_command).

End Script.

(** ** Notions used to state the properties *)

(** A directory [cwd] lies inside [home] when the components of [home]
    lead to it: [/home/bob/src] is inside [/home/bob], [/home/bobby] is
    not. *)
Definition path_within (home cwd : string) : Prop :=
  PosixPath.components home `prefix_of` PosixPath.components cwd.

#[global] Instance path_within_dec home cwd : Decision (path_within home cwd).
Proof. unfold path_within. apply _. Defined.

(** The state once [main] has printed its warnings. *)
Definition warned (w : World) (st : State) : State :=
  with_lines (map ignoring_line (elements (ignored_args (parse_command w)))) st.

(** The state once [run] has announced a command, when it is verbose. *)
Definition announced (w : World) (args : list string) (st : State) : State :=
  if VERBOSE w
  then with_lines ["Running: " ++ PyStr.join " " (map naively_escaped args)] st
  else st.

(** The test [is_within_home_dir] makes, for the home directory [h]. *)
Definition shares_home_prefix (w : World) (h : string) : bool :=
  String.eqb
    (PosixPath.commonprefix [getcwd w; PosixPath.abspath (getcwd w) h])
    (PosixPath.abspath (getcwd w) h).

(** The argument vector of a pass-through call of the executable [g]. *)
Definition forwarded (w : World) (g : string) : list string :=
  g :: ("--git-dir=" ++ BARE_REPO_DIR w) :: ("--work-tree=" ++ PyStr.fmt (HOME w))
    :: tail (argv w).

(** A line that is a warning about an ignored argument starts like one. *)
Definition is_warning (line : string) : bool := PyStr.startswith "Ignoring " line.

Definition not_warning (line : string) : Prop := is_warning line = false.

(** The lines a run of [m] from the state [st] printed. *)
Definition printed {A} (m : M A) (st : State) : list string :=
  drop (length (st_stdout st)) (st_stdout (m st).2).

(** [m] only adds lines to what is printed, and every line it adds
    satisfies [P]. *)
Definition appends {A} (P : string → Prop) (m : M A) : Prop :=
  ∀ st, ∃ out, st_stdout (m st).2 = (st_stdout st ++ out)%list ∧ Forall P out.

(** Whether the script called [subprocess.run] at all. *)
Definition is_run (ev : Event) : bool :=
  match ev with
  | EvRun _ _ => true
  | _ => false
  end.

(** ** Notions for the further properties *)

(** The lines of [run_help]. *)
Definition usage : list string :=
  ["Usage:";
   "homegit init";
   "homegit untrack";
   "homegit clone <repository_url>";
   "homegit [standard git commands and arguments...]"].

(** The calls a run of [m] from the state [st] made. *)
Definition performed {A} (m : M A) (st : State) : list Event :=
  drop (length (st_events st)) (st_events (m st).2).

(** The exceptions [friendly_error_messages] has a message for. *)
Definition translated (e : exn) : bool :=
  match e with
  | CloneFailure | ExistingRepoDir | FileNotFoundError | InitFailure
  | SettingShowUntrackedFilesFailure => true
  | _ => false
  end.

(** An exception that ends the process with status 0 or 1: any but a
    [sys.exit] with a number other than 0. *)
Definition civil (e : exn) : Prop :=
  match e with
  | SystemExit (ExitCode n) => n = 0
  | _ => True
  end.

(** [m] returns values that satisfy [Q] and raises civil exceptions. *)
Definition yields {A} (Q : A → Prop) (m : M A) : Prop :=
  ∀ st, match (m st).1 with
        | inl a => Q a
        | inr e => civil e
        end.

Definition tame {A} (m : M A) : Prop := yields (λ _, True) m.

(** [m] only adds calls to the trace, and every call it adds satisfies
    [P]. *)
Definition emits {A} (P : Event → Prop) (m : M A) : Prop :=
  ∀ st, ∃ evs, st_events (m st).2 = (st_events st ++ evs)%list ∧ Forall P evs.

Definition is_rmtree (ev : Event) : bool :=
  match ev with
  | EvRmtree _ => true
  | _ => false
  end.

Definition is_mkdir (ev : Event) : bool :=
  match ev with
  | EvMkdir _ => true
  | _ => false
  end.

(** The line [run] prints for a command when it is verbose. *)
Definition running_line (args : list string) : string :=
  "Running: " ++ PyStr.join " " (map naively_escaped args).

(** The lines [run] prints for a sequence of commands. *)
Definition announcements (w : World) (commands : list (list string)) : list string :=
  if VERBOSE w then map running_line commands else [].

(** The warnings [main] prints. *)
Definition warnings (w : World) : list string :=
  map ignoring_line (elements (ignored_args (parse_command w))).

(** The command of [do_not_show_untracked_files] for the executable [g]. *)
Definition config_command (w : World) (g : string) : list string :=
  [g; "--git-dir=" ++ BARE_REPO_DIR w; "--work-tree=" ++ PyStr.fmt (HOME w);
   "config"; "--local"; "status.showUntrackedFiles"; "no"].

(** The command of [checkout_repo] for the executable [g]. *)
Definition checkout_command (w : World) (g : string) : list string :=
  [g; "--git-dir=" ++ BARE_REPO_DIR w; "--work-tree=" ++ PyStr.fmt (HOME w); "checkout"].

(** The command of [get_remote_origin_url] for the executable [g]. *)
Definition origin_command (w : World) (g : string) : list string :=
  [g; "--git-dir=" ++ BARE_REPO_DIR w; "--work-tree=" ++ PyStr.fmt (HOME w);
   "config"; "--get"; "remote.origin.url"].

(** The command of [init_repo] and the one of [clone_repo] for the
    executable [g]. *)
Definition init_command (w : World) (g : string) : list string :=
  [g; "init"; "--bare"; BARE_REPO_DIR w].

Definition clone_command (w : World) (g url : string) : list string :=
  [g; "clone"; "--bare"; url; BARE_REPO_DIR w].

(** The lines that end a successful Init and a successful Clone, and the
    warning about a checkout that failed. *)
Definition initialized_line (w : World) : string :=
  "Initialized " ++ HOMEGIT_REPO w ++ " repo".

Definition cloned_line (w : World) : string := "Cloned " ++ HOMEGIT_REPO w ++ " repo".

Definition checkout_warning (w : World) : string :=
  "Warning: could not checkout latest changes (" ++ HOMEGIT_REPO w ++ ")".

(** The same world with [VERBOSE] taken out of the environment. *)
Definition hushed (w : World) : World :=
  {| environ := delete "VERBOSE" (environ w);
     which_git := which_git w;
     argv := argv w;
     getcwd := getcwd w;
     can_exec := can_exec w;
     tool := tool w |}.

(** A line that starts like the ones [run] prints when it is verbose. *)
Definition is_running (line : string) : bool := PyStr.startswith "Running: " line.

(** What is printed apart from the lines of the verbose [run]. *)
Definition unannounced (lines : list string) : list string :=
  filter (λ line, is_running line = false) lines.

(** Two states with the same file system and the same calls, and the
    same lines printed apart from the ones of the verbose [run]. *)
Definition alike (st st0 : State) : Prop :=
  st_fs st = st_fs st0
  ∧ st_events st = st_events st0
  ∧ unannounced (st_stdout st) = unannounced (st_stdout st0).

(** [m] and [m0] do the same on states that are alike. *)
Definition agree {A} (m m0 : M A) : Prop :=
  ∀ st st0, alike st st0 → (m st).1 = (m0 st0).1 ∧ alike (m st).2 (m0 st0).2.

(** ** Concrete runs *)

Module Scenario.

Definition git : string := "/usr/bin/git".

Definition url : string := "https://example.com/dotfiles.git".

(** A home directory with a storage root and the default repository in
    it, next to the home directory of another user. *)
Definition tracked : FS.t :=
  {[ ["home"] := FS.Dir;
     ["home"; "bob"] := FS.Dir;
     ["home"; "bobby"] := FS.Dir;
     ["home"; "bob"; ".homegit"] := FS.Dir;
     ["home"; "bob"; ".homegit"; "default"] := FS.Dir;
     ["home"; "bob"; ".homegit"; "default"; "HEAD"] := FS.File ]}.

(** The same home directory with an empty storage root. *)
Definition untracked : FS.t :=
  {[ ["home"] := FS.Dir;
     ["home"; "bob"] := FS.Dir;
     ["home"; "bobby"] := FS.Dir;
     ["home"; "bob"; ".homegit"] := FS.Dir ]}.

(** A home directory without a storage root. *)
Definition bare_home : FS.t :=
  {[ ["home"] := FS.Dir;
     ["home"; "bob"] := FS.Dir;
     ["home"; "bobby"] := FS.Dir ]}.

Definition newline : byte := x0a.

(** An executable that answers [config --get remote.origin.url] with the
    URL and a newline, as git does, and ends every other call with the
    status [rc], leaving the file system alone. *)
Definition git_tool (rc : Z) (args : list string) (cwd : string) (fs : FS.t) : ToolResult :=
  if bool_decide (drop 3 args = ["config"; "--get"; "remote.origin.url"])
  then {| tr_returncode := 0;
          tr_stdout := app (list_byte_of_string url) [newline];
          tr_fs := fs |}
  else {| tr_returncode := rc; tr_stdout := []; tr_fs := fs |}.

Definition world (args : list string) (cwd : string) (launches : bool) (rc : Z) : World :=
  {| environ := {[ "HOME" := "/home/bob" ]};
     which_git := Some git;
     argv := "homegit" :: args;
     getcwd := cwd;
     can_exec := λ _, launches;
     tool := git_tool rc |}.

Definition start (fs : FS.t) : State :=
  {| st_fs := fs; st_stdout := []; st_events := [] |}.

(** [homegit init] and [homegit INIT]. *)
Definition init_lower : World := world ["init"] "/home/bob" true 0.
Definition init_upper : World := world ["INIT"] "/home/bob" true 0.

(** [homegit status] from the home directory, no repository yet. *)
Definition status_untracked : World := world ["status"] "/home/bob" true 0.

(** [homegit init] and [homegit untrack]. *)
Definition init_again : World := world ["init"] "/home/bob" true 0.
Definition untrack : World := world ["untrack"] "/home/bob" true 0.

(** [homegit clone] without a URL. *)
Definition clone_no_url : World := world ["clone"] "/home/bob" true 0.

(** [homegit status] in a repository where git ends with status 3. *)
Definition status_fails : World := world ["status"] "/home/bob" true 3.

(** [homegit status] from the home directory of another user, whose name
    starts with the name of this one. *)
Definition status_elsewhere : World := world ["status"] "/home/bobby" true 0.

(** [homegit clone] of the URL the repository was cloned from. *)
Definition clone_again : World := world ["clone"; url] "/home/bob" true 0.

(** [homegit init] when git cannot be launched, and when it ends with
    status 128. *)
Definition init_no_git : World := world ["init"] "/home/bob" false 0.
Definition init_fails : World := world ["init"] "/home/bob" true 128.


(** [homegit --help --bare] and [homegit -v], with [HOME] set and not. *)
Definition help_flag : World := world ["--help"; "--bare"] "/home/bob" true 0.
Definition version_flag : World := world ["-v"] "/home/bob" true 1.
Definition homeless : World :=
  {| environ := {[ "HOMEGIT_DIR" := "/srv/homegit" ]};
     which_git := Some git;
     argv := ["homegit"; "--help"];
     getcwd := "/home/bob";
     can_exec := λ _, true;
     tool := git_tool 0 |}.


(** [homegit status] from a directory outside the home directory. *)
Definition status_away : World := world ["status"] "/srv" true 0.

(** [homegit clone] of a URL on a home directory without a storage root,
    with an executable whose checkout ends with status 1 and every other
    call with status 0. *)
Definition checkout_fails (args : list string) (cwd : string) (fs : FS.t) : ToolResult :=
  {| tr_returncode := if bool_decide (last args = Some "checkout") then 1 else 0;
     tr_stdout := [];
     tr_fs := fs |}.

Definition clone_fresh : World :=
  {| environ := {[ "HOME" := "/home/bob" ]};
     which_git := Some git;
     argv := ["homegit"; "clone"; url];
     getcwd := "/home/bob";
     can_exec := λ _, true;
     tool := checkout_fails |}.

(** The file system of a machine where nothing of the home directory
    exists. *)
Definition nothing : FS.t := ∅.

(** [homegit init] with an executable that makes the repository, and
    [homegit clone] with one whose clone ends with status 128. *)
Definition makes_repo (args : list string) (cwd : string) (fs : FS.t) : ToolResult :=
  {| tr_returncode := 0;
     tr_stdout := [];
     tr_fs := if bool_decide ("init" ∈ args)
              then <[ ["home"; "bob"; ".homegit"; "default"] := FS.Dir ]> fs
              else fs |}.

Definition init_real : World :=
  {| environ := {[ "HOME" := "/home/bob" ]};
     which_git := Some git;
     argv := ["homegit"; "init"];
     getcwd := "/home/bob";
     can_exec := λ _, true;
     tool := makes_repo |}.

Definition clone_fails : World := world ["clone"; url] "/home/bob" true 128.

End Scenario.

Example lower_INIT : PyStr.lower "INIT" = "init".
Proof. reflexivity. Qed.

Example split_fields : PyStr.split PyStr.slash "/a//b" = [EmptyString; "a"; EmptyString; "b"].
Proof. reflexivity. Qed.

Example normpath_dots : PosixPath.normpath "/home/./bob/../alice//x/" = "/home/alice/x".
Proof. reflexivity. Qed.

Example abspath_rel : PosixPath.abspath "/home/bob" "../carol" = "/home/carol".
Proof. reflexivity. Qed.

Example commonprefix_chars :
  PosixPath.commonprefix ["/home/bobby"; "/home/bob"] = "/home/bob".
Proof. reflexivity. Qed.

(** ** The monad and the primitives *)

Lemma bind_unfold {A B} (m : M A) (k : A → M B) (st : State) :
  (m ≫= k) st =
  match m st with
  | (inl a, st') => k a st'
  | (inr e, st') => (inr e, st')
  end.
Proof. reflexivity. Qed.

(** Runs the monad of a goal one layer down: the binds and the primitives
    are replaced by what they do to the state. *)
Ltac mrun :=
  unfold mbind, M_bind, bind, mret, M_ret, ret, sys_exit, raise, when,
    try_except, log, get_fs, put_fs, print;
  cbn beta iota.

Lemma for_each_print {A} (f : A → string) (xs : list A) (st : State) :
  for_each xs (λ x, print (f x)) st = (inl tt, with_lines (map f xs) st).
Proof.
  revert st. induction xs as [|x xs IH]; intros st; simpl.
  - unfold mret, M_ret, ret, with_lines. destruct st; simpl.
    by rewrite app_nil_r.
  - rewrite bind_unfold. unfold print at 1. rewrite IH.
    unfold with_lines; simpl. by rewrite <- app_assoc.
Qed.

Section Facts.

Context (w : World).

(** Past the check of [HOME], [main] prints the warnings and hands over
    to the handler of the command. *)
Lemma main_dispatch (h : string) (st : State) :
  HOME w = Some h →
  main w st = dispatch w (command (parse_command w)) (warned w st).
Proof.
  intros Hh. unfold main. rewrite Hh.
  rewrite bool_decide_eq_false_2 by done.
  rewrite bind_unfold. unfold when at 1. unfold mret at 1, M_ret, ret.
  rewrite bind_unfold, for_each_print. reflexivity.
Qed.

Lemma main_no_home (st : State) :
  HOME w = None →
  main w st =
  (inr (SystemExit (ExitMsg "You must set a value of the HOME environment vairable")), st).
Proof.
  intros Hh. unfold main. rewrite Hh.
  rewrite bool_decide_eq_true_2 by done. reflexivity.
Qed.

Lemma bare_repo_dir_exists_unfold (st : State) :
  bare_repo_dir_exists w st =
  (inl (FS.isdir (st_fs st) (resolve w (BARE_REPO_DIR w))),
   with_events [EvIsdir (BARE_REPO_DIR w)] st).
Proof. reflexivity. Qed.

End Facts.

(** ** The file system *)

Lemma rmtree_present (fs : FS.t) (p : list string) :
  FS.isdir fs p = true → ∃ fs', FS.rmtree fs p = inr fs'.
Proof.
  unfold FS.isdir, FS.rmtree. destruct (FS.node_at fs p) as [[]|]; [eauto|done..].
Qed.

Lemma rmtree_absent (fs : FS.t) (p : list string) :
  FS.node_at fs p = None → FS.rmtree fs p = inl FileNotFoundError.
Proof. unfold FS.rmtree. by intros ->. Qed.

Lemma rmtree_clears (fs fs' : FS.t) (p q : list string) :
  FS.rmtree fs p = inr fs' → p `prefix_of` q → fs' !! q = None.
Proof.
  unfold FS.rmtree. destruct (FS.node_at fs p) as [[]|]; [|done..].
  intros [= <-] Hpq. apply map_lookup_filter_None. right.
  intros x _ Hx. by apply Hx.
Qed.

Lemma rmtree_keeps (fs fs' : FS.t) (p q : list string) :
  FS.rmtree fs p = inr fs' → ¬ p `prefix_of` q → fs' !! q = fs !! q.
Proof.
  unfold FS.rmtree. destruct (FS.node_at fs p) as [[]|]; [|done..].
  intros [= <-] Hpq. destruct (fs !! q) as [x|] eqn:Hq.
  - by apply map_lookup_filter_Some.
  - apply map_lookup_filter_None. by left.
Qed.

(** ** Handlers that stop before anything happens *)

Section Refusals.

Context (w : World).

(** C6: a pass-through invocation while the bare-repo directory is absent
    ends with the "Unknown repo" message given straight to [sys.exit]
    (none of the typed exceptions is involved), the exit status is not 0,
    and the only thing the script did was to look whether the directory
    exists: [subprocess.run] was never called and the file system is as
    it was. *)
Theorem passthrough_unknown_repo (h : string) (st : State) :
  HOME w = Some h →
  command (parse_command w) = Some GIT →
  FS.isdir (st_fs st) (resolve w (BARE_REPO_DIR w)) = false →
  main w st =
    (inr (SystemExit (ExitMsg ("Unknown repo: " ++ HOMEGIT_REPO w
                               ++ " (" ++ BARE_REPO_DIR w ++ ")"))),
     with_events [EvIsdir (BARE_REPO_DIR w)] (warned w st))
  ∧ exit_status (main w st).1 = 1
  ∧ st_fs (main w st).2 = st_fs st
  ∧ filter is_run (st_events (main w st).2) = filter is_run (st_events st).
Proof.
  intros Hh Hc Hd.
  assert (main w st =
    (inr (SystemExit (ExitMsg ("Unknown repo: " ++ HOMEGIT_REPO w
                               ++ " (" ++ BARE_REPO_DIR w ++ ")"))),
     with_events [EvIsdir (BARE_REPO_DIR w)] (warned w st))) as ->.
  { rewrite (main_dispatch w h st Hh), Hc. unfold dispatch, run_git.
    rewrite bind_unfold, bare_repo_dir_exists_unfold.
    change (st_fs (warned w st)) with (st_fs st). by rewrite Hd. }
  repeat split. simpl. by rewrite filter_app, app_nil_r.
Qed.

(** C7: Init while the bare-repo directory exists raises
    [ExistingRepoDir], reported with the "Existing repo" message; the
    script has only looked at the directory: nothing was created, nothing
    was run, the file system is as it was. *)
Theorem init_refused_when_present (h : string) (st : State) :
  HOME w = Some h →
  command (parse_command w) = Some INIT →
  FS.isdir (st_fs st) (resolve w (BARE_REPO_DIR w)) = true →
  init_repo w st = (inr ExistingRepoDir, with_events [EvIsdir (BARE_REPO_DIR w)] st)
  ∧ main w st =
      (inr (SystemExit (ExitMsg ("Existing repo: " ++ HOMEGIT_REPO w
                                 ++ " (" ++ BARE_REPO_DIR w ++ ")"))),
       with_events [EvIsdir (BARE_REPO_DIR w)] (warned w st))
  ∧ exit_status (main w st).1 = 1
  ∧ st_fs (main w st).2 = st_fs st.
Proof.
  intros Hh Hc Hd.
  assert (∀ s, st_fs s = st_fs st →
    init_repo w s = (inr ExistingRepoDir, with_events [EvIsdir (BARE_REPO_DIR w)] s)) as Hinit.
  { intros s Hs. unfold init_repo.
    rewrite bind_unfold, bare_repo_dir_exists_unfold, Hs, Hd. reflexivity. }
  assert (main w st =
      (inr (SystemExit (ExitMsg ("Existing repo: " ++ HOMEGIT_REPO w
                                 ++ " (" ++ BARE_REPO_DIR w ++ ")"))),
       with_events [EvIsdir (BARE_REPO_DIR w)] (warned w st))) as ->.
  { rewrite (main_dispatch w h st Hh), Hc. unfold dispatch, run_init.
    unfold friendly_error_messages, try_except.
    rewrite bind_unfold, (Hinit (warned w st)) by done. reflexivity. }
  split; [by apply Hinit|]. done.
Qed.

(** C10: a Clone invocation whose argument list is not exactly the
    program name, the clone token and one more argument ends with the
    [ValueError] of the failed unpacking, uncaught (no [sys.exit], no
    friendly message); the script has looked at nothing, created nothing
    and run nothing. *)
Theorem clone_arity_error (h : string) (st : State) :
  HOME w = Some h →
  command (parse_command w) = Some CLONE →
  length (argv w) ≠ 3%nat →
  main w st = (inr ValueError, warned w st)
  ∧ st_events (main w st).2 = st_events st
  ∧ st_fs (main w st).2 = st_fs st.
Proof.
  intros Hh Hc Hlen.
  assert (main w st = (inr ValueError, warned w st)) as ->; [|done].
  rewrite (main_dispatch w h st Hh), Hc. unfold dispatch, run_clone.
  destruct (argv w) as [|a0 [|a1 [|a2 [|a3 rest]]]]; simpl in Hlen; done.
Qed.

(** C9: Untrack starts with the removal of the bare-repo directory tree,
    and nothing looks at the directory before.  When the directory is
    absent, the [FileNotFoundError] of the removal leaves the script as it
    is (no [sys.exit], no message of the script, nothing reported); any
    error of the removal does.  When the removal completes, nothing is
    left at or below the directory, the success line is printed and the
    script returns normally; and the removal of a directory that is
    present completes. *)
Theorem untrack_removes_unchecked (h : string) (st : State) :
  HOME w = Some h →
  command (parse_command w) = Some UNTRACK →
  let key := resolve w (BARE_REPO_DIR w) in
  let begun := with_events [EvRmtree (BARE_REPO_DIR w)] (warned w st) in
  st_events (main w st).2 = (st_events st ++ [EvRmtree (BARE_REPO_DIR w)])%list
  ∧ (FS.node_at (st_fs st) key = None →
     main w st = (inr FileNotFoundError, begun))
  ∧ (∀ e, FS.rmtree (st_fs st) key = inl e → main w st = (inr e, begun))
  ∧ (∀ fs', FS.rmtree (st_fs st) key = inr fs' →
     main w st =
       (inl tt,
        with_lines ["Stopped tracking homegit repo at " ++ BARE_REPO_DIR w]
          (with_fs fs' begun))
     ∧ exit_status (main w st).1 = 0
     ∧ ∀ q, key `prefix_of` q → fs' !! q = None)
  ∧ (FS.isdir (st_fs st) key = true → ∃ fs', FS.rmtree (st_fs st) key = inr fs').
Proof.
  intros Hh Hc key begun.
  assert (main w st =
    match FS.rmtree (st_fs st) key with
    | inl e => (inr e, begun)
    | inr fs' =>
        (inl tt,
         with_lines ["Stopped tracking homegit repo at " ++ BARE_REPO_DIR w]
           (with_fs fs' begun))
    end) as Hmain.
  { rewrite (main_dispatch w h st Hh), Hc. unfold dispatch, run_untrack, shutil_rmtree.
    mrun.
    change (st_fs (with_events [EvRmtree (BARE_REPO_DIR w)] (warned w st)))
      with (st_fs st).
    fold key. destruct (FS.rmtree (st_fs st) key); reflexivity. }
  split; [|split; [|split; [|split]]].
  - rewrite Hmain. by destruct (FS.rmtree (st_fs st) key).
  - intros Hn. by rewrite Hmain, (rmtree_absent _ _ Hn).
  - intros e He. by rewrite Hmain, He.
  - intros fs' Hfs. rewrite Hmain, Hfs. repeat split.
    intros q Hq. by eapply rmtree_clears.
  - apply rmtree_present.
Qed.

End Refusals.

(** C6 on [homegit status] before any repository exists. *)
Lemma passthrough_unknown_repo_witness :
  exit_status (main Scenario.status_untracked (Scenario.start Scenario.untracked)).1 = 1
  ∧ filter is_run
      (st_events (main Scenario.status_untracked (Scenario.start Scenario.untracked)).2) = [].
Proof.
  destruct (passthrough_unknown_repo Scenario.status_untracked "/home/bob"
              (Scenario.start Scenario.untracked)) as (_ & H1 & _ & H2);
    [vm_compute; reflexivity..|].
  split; [exact H1|exact H2].
Defined.

(** C7 on a second [homegit init]. *)
Lemma init_refused_when_present_witness :
  (init_repo Scenario.init_again (Scenario.start Scenario.tracked)).1 = inr ExistingRepoDir
  ∧ st_fs (main Scenario.init_again (Scenario.start Scenario.tracked)).2 = Scenario.tracked.
Proof.
  destruct (init_refused_when_present Scenario.init_again "/home/bob"
              (Scenario.start Scenario.tracked)) as (H1 & _ & _ & H2);
    [vm_compute; reflexivity..|].
  split; [by rewrite H1|exact H2].
Defined.

(** C10 on [homegit clone] without a URL. *)
Lemma clone_arity_error_witness :
  main Scenario.clone_no_url (Scenario.start Scenario.untracked)
  = (inr ValueError, warned Scenario.clone_no_url (Scenario.start Scenario.untracked)).
Proof.
  apply (clone_arity_error Scenario.clone_no_url "/home/bob"
           (Scenario.start Scenario.untracked));
    [vm_compute; reflexivity..|].
  vm_compute. discriminate.
Defined.

(** C9 on [homegit untrack], with the repository and without it. *)
Lemma untrack_removes_unchecked_witness :
  (main Scenario.untrack (Scenario.start Scenario.untracked)).1 = inr FileNotFoundError
  ∧ st_events (main Scenario.untrack (Scenario.start Scenario.tracked)).2
    = [EvRmtree "/home/bob/.homegit/default"].
Proof.
  split.
  - destruct (untrack_removes_unchecked Scenario.untrack "/home/bob"
                (Scenario.start Scenario.untracked)) as (_ & H & _);
      [vm_compute; reflexivity..|].
    rewrite H; [reflexivity|]. vm_compute. reflexivity.
  - destruct (untrack_removes_unchecked Scenario.untrack "/home/bob"
                (Scenario.start Scenario.tracked)) as (H & _);
      [vm_compute; reflexivity..|].
    exact H.
Defined.

(** ** The command classifier *)

Lemma command_dict_unfold :
  command_dict =
  <["-h" := HELP]> (<["--help" := HELP]> (<["-v" := VERSION]> (<["--version" := VERSION]>
  (<["untrack" := UNTRACK]> (<["version" := VERSION]> (<["help" := HELP]>
  (<["clone" := CLONE]> (<["init" := INIT]> ∅)))))))).
Proof. reflexivity. Qed.

Lemma command_dict_lookup (tok : string) :
  command_dict !! tok =
  if decide ("-h" = tok) then Some HELP
  else if decide ("--help" = tok) then Some HELP
  else if decide ("-v" = tok) then Some VERSION
  else if decide ("--version" = tok) then Some VERSION
  else if decide ("untrack" = tok) then Some UNTRACK
  else if decide ("version" = tok) then Some VERSION
  else if decide ("help" = tok) then Some HELP
  else if decide ("clone" = tok) then Some CLONE
  else if decide ("init" = tok) then Some INIT
  else None.
Proof. rewrite command_dict_unfold. by rewrite !lookup_insert, lookup_empty. Qed.

Section Classifier.

Context (w : World).

(** The command is a function of the first token alone. *)
Lemma parse_command_first_token :
  command (parse_command w) =
  match argv w with
  | _ :: tok :: _ => Some (default GIT (command_dict !! tok))
  | _ => None
  end.
Proof.
  unfold parse_command; simpl.
  destruct (argv w) as [|prog [|tok rest]]; case_bool_decide; simpl in *; done || lia.
Qed.

(** C4, amended: the classifier compares the first token with the table
    as it is written, so the match is case-sensitive.  A first token
    classifies to an action exactly when it is one of the nine literals of
    the table (the five command names in lower case and the four flags);
    every other first token classifies to pass-through, and so does every
    token with a capital letter in it, such as INIT or Init. *)
Theorem parse_command_exact (prog tok : string) (rest : list string) :
  argv w = prog :: tok :: rest →
  (command (parse_command w) = Some INIT ↔ tok = "init")
  ∧ (command (parse_command w) = Some CLONE ↔ tok = "clone")
  ∧ (command (parse_command w) = Some UNTRACK ↔ tok = "untrack")
  ∧ (command (parse_command w) = Some HELP ↔ tok ∈ ["help"; "--help"; "-h"])
  ∧ (command (parse_command w) = Some VERSION ↔ tok ∈ ["version"; "--version"; "-v"])
  ∧ (command (parse_command w) = Some GIT ↔
       tok ∉ ["init"; "clone"; "untrack"; "help"; "--help"; "-h";
              "version"; "--version"; "-v"])
  ∧ (command_dict !! tok = None → command (parse_command w) = Some GIT)
  ∧ (PyStr.lower tok ≠ tok → command (parse_command w) = Some GIT).
Proof.
  intros Hargv. rewrite parse_command_first_token, Hargv, command_dict_lookup.
  rewrite !elem_of_cons, !elem_of_nil.
  repeat (destruct (decide _) as [<-|?]); simpl;
    (repeat split; try done; intuition congruence).
Qed.

End Classifier.

(** C4 on [homegit INIT]: it is passed through. *)
Lemma parse_command_exact_witness :
  command (parse_command Scenario.init_upper) = Some GIT.
Proof.
  destruct (parse_command_exact Scenario.init_upper "homegit" "INIT" [])
    as (_ & _ & _ & _ & _ & _ & _ & H); [reflexivity|].
  apply H. vm_compute. discriminate.
Defined.

(** C4 as stated fails: the same command name in another casing is
    classified differently. *)
Lemma classification_depends_on_case :
  command (parse_command Scenario.init_lower) = Some INIT
  ∧ command (parse_command Scenario.init_upper) = Some GIT
  ∧ command (parse_command Scenario.init_upper) ≠ command (parse_command Scenario.init_lower).
Proof. vm_compute. repeat split; discriminate. Qed.

(** ** Running the executable *)

(** Runs the monad of a goal all the way, down to the states. *)
Ltac mstate :=
  cbv beta iota zeta delta
    [when mbind M_bind bind mret M_ret ret sys_exit raise try_except log get_fs
     put_fs print announced with_events with_lines with_fs st_fs st_stdout
     st_events kw_cwd kw_check kw_capture_output].


Lemma as_strings_Some (l : list string) : as_strings (map Some l) = Some l.
Proof.
  unfold as_strings. induction l as [|x l IH]; [done|].
  simpl. rewrite IH. reflexivity.
Qed.

Lemma when_true (m : M unit) : when true m = m.
Proof. reflexivity. Qed.

Lemma when_false (m : M unit) : when false m = mret tt.
Proof. reflexivity. Qed.

Lemma ret_bind {A B} (a : A) (k : A → M B) : (mret a ≫= k) = k a.
Proof. reflexivity. Qed.

Lemma raise_bind {A B} (e : exn) (k : A → M B) : (raise e ≫= k) = raise e.
Proof. reflexivity. Qed.

Section Running.

Context (w : World).

(** What [run] does with a command whose program is known. *)
Lemma run_unfold (g : string) (rest : list string) (kw : RunKwargs) (st : State) :
  run w (Some g :: map Some rest) kw st =
  let st1 := with_events [EvRun (g :: rest) (kw_cwd kw)] (announced w (g :: rest) st) in
  match launch_error w (st_fs st) (kw_cwd kw) g with
  | Some e => (inr e, st1)
  | None =>
      let r := tool w (g :: rest) (default (getcwd w) (kw_cwd kw)) (st_fs st) in
      if (default true (kw_check kw) && negb (tr_returncode r =? 0))%bool
      then (inr (CalledProcessError (tr_returncode r)), with_fs (tr_fs r) st1)
      else (inl {| cp_stdout := if kw_capture_output kw then Some (tr_stdout r) else None;
                   cp_returncode := tr_returncode r |},
            with_fs (tr_fs r) st1)
  end.
Proof.
  unfold run, subprocess_run.
  change (Some g :: map Some rest) with (map Some (g :: rest)).
  rewrite as_strings_Some.
  destruct kw as [cwd check capture], st as [fs out evs].
  mstate.
  destruct (VERBOSE w); mstate;
    destruct (launch_error w fs cwd g); try reflexivity;
    destruct check as [[]|]; simpl; try reflexivity;
    destruct (tr_returncode _ =? 0); reflexivity.
Qed.

Lemma launch_error_here (fs : FS.t) (g : string) :
  launch_error w fs None g = if can_exec w g then None else Some FileNotFoundError.
Proof. reflexivity. Qed.

Lemma launch_error_there (fs : FS.t) (d g : string) :
  FS.isdir fs (resolve w d) = true →
  launch_error w fs (Some d) g = if can_exec w g then None else Some FileNotFoundError.
Proof.
  unfold launch_error, FS.isdir. by destruct (FS.node_at fs (resolve w d)) as [[]|].
Qed.

(** Without a program, [run] fails on its first argument. *)
Lemma run_no_program (rest : list (option string)) (kw : RunKwargs) (st : State) :
  run w (None :: rest) kw st = (inr TypeError, st).
Proof.
  unfold run, subprocess_run. mrun. by destruct (VERBOSE w).
Qed.

Lemma is_within_home_dir_unfold (h : string) (st : State) :
  HOME w = Some h →
  is_within_home_dir w st = (inl (shares_home_prefix w h), st).
Proof. intros Hh. unfold is_within_home_dir. by rewrite Hh. Qed.

(** The pass-through handler once its two checks have passed and the
    executable is launched: the exit status of the executable reaches
    [sys.exit] only when it is 0. *)
Lemma run_git_launched (h g : string) (st : State) :
  HOME w = Some h →
  GIT_EXECUTABLE w = Some g →
  FS.isdir (st_fs st) (resolve w (BARE_REPO_DIR w)) = true →
  shares_home_prefix w h = true →
  can_exec w g = true →
  let r := tool w (forwarded w g) (getcwd w) (st_fs st) in
  run_git w st =
  (inr (SystemExit
          (if tr_returncode r =? 0 then ExitCode (tr_returncode r)
           else ExitMsg ("Error setting status.showUntrackedFiles for " ++ HOMEGIT_REPO w))),
   with_fs (tr_fs r)
     (with_events [EvRun (forwarded w g) None]
        (announced w (forwarded w g) (with_events [EvIsdir (BARE_REPO_DIR w)] st)))).
Proof.
  intros Hh Hg Hd Hin Hx r. unfold run_git.
  rewrite bind_unfold, bare_repo_dir_exists_unfold, Hd. cbn beta iota.
  simpl negb. rewrite when_false, ret_bind.
  rewrite bind_unfold, (is_within_home_dir_unfold h _ Hh), Hin. cbn beta iota.
  simpl negb. rewrite when_false, ret_bind, Hg.
  change (app _ (map Some (tail (argv w))))
    with (Some g :: map Some (tail (forwarded w g))).
  rewrite bind_unfold. unfold friendly_error_messages, try_except.
  rewrite run_unfold.
  change (g :: tail (forwarded w g)) with (forwarded w g).
  cbn zeta. simpl kw_cwd. simpl kw_check. simpl default.
  change (st_fs (with_events ?e ?s)) with (st_fs s).
  rewrite launch_error_here, Hx. fold r.
  destruct (tr_returncode r =? 0); reflexivity.
Qed.

End Running.

(** ** The pass-through path *)

Section Passthrough.

Context (w : World).

(** X18: the exit status of a pass-through call that launched the
    executable: 0 when the executable ended with 0, and 1 otherwise,
    whatever the status of the executable was. *)
Lemma passthrough_exit_status (h g : string) (st : State) :
  HOME w = Some h →
  GIT_EXECUTABLE w = Some g →
  command (parse_command w) = Some GIT →
  FS.isdir (st_fs st) (resolve w (BARE_REPO_DIR w)) = true →
  shares_home_prefix w h = true →
  can_exec w g = true →
  exit_status (main w st).1 =
  if tr_returncode (tool w (forwarded w g) (getcwd w) (st_fs st)) =? 0 then 0 else 1.
Proof.
  intros Hh Hg Hc Hd Hin Hx.
  rewrite (main_dispatch w h st Hh), Hc. unfold dispatch.
  rewrite (run_git_launched w h g (warned w st) Hh Hg Hd Hin Hx).
  change (st_fs (warned w st)) with (st_fs st).
  destruct (tr_returncode _ =? 0) eqn:Hrc; [|done].
  apply Z.eqb_eq in Hrc. by rewrite Hrc.
Qed.

(** X19: the guard of the pass-through handler on the working directory:
    when the test of [is_within_home_dir] fails, the script ends with the
    message about the working directory and has run nothing. *)
Lemma passthrough_location_guard (h : string) (st : State) :
  HOME w = Some h →
  command (parse_command w) = Some GIT →
  FS.isdir (st_fs st) (resolve w (BARE_REPO_DIR w)) = true →
  shares_home_prefix w h = false →
  main w st =
    (inr (SystemExit (ExitMsg ("The current working directory must be run within the "
                               ++ h ++ " directory (" ++ getcwd w ++ ")"))),
     with_events [EvIsdir (BARE_REPO_DIR w)] (warned w st)).
Proof.
  intros Hh Hc Hd Hin.
  rewrite (main_dispatch w h st Hh), Hc. unfold dispatch, run_git.
  rewrite bind_unfold, bare_repo_dir_exists_unfold.
  change (st_fs (warned w st)) with (st_fs st). rewrite Hd. cbn beta iota.
  simpl negb. rewrite when_false, ret_bind.
  rewrite bind_unfold, (is_within_home_dir_unfold w h _ Hh), Hin. cbn beta iota.
  simpl negb. rewrite when_true, Hh. reflexivity.
Qed.

End Passthrough.

(** C1 fails on the code: [homegit status] in a tracked home directory,
    where git ends with status 3.  The script ends with status 1 and the
    message of the untracked-files setting; the status of git is lost. *)
Theorem passthrough_status_not_forwarded :
  tr_returncode
    (tool Scenario.status_fails (forwarded Scenario.status_fails Scenario.git)
       "/home/bob" Scenario.tracked) = 3
  ∧ st_events (main Scenario.status_fails (Scenario.start Scenario.tracked)).2
    = [EvIsdir "/home/bob/.homegit/default";
       EvRun [Scenario.git; "--git-dir=/home/bob/.homegit/default";
              "--work-tree=/home/bob"; "status"] None]
  ∧ (main Scenario.status_fails (Scenario.start Scenario.tracked)).1
    = inr (SystemExit (ExitMsg "Error setting status.showUntrackedFiles for default"))
  ∧ exit_status (main Scenario.status_fails (Scenario.start Scenario.tracked)).1 = 1.
Proof. vm_compute. done. Qed.

(** C5 fails on the code: [homegit status] from [/home/bobby] with the
    home directory [/home/bob].  The working directory is not inside the
    home directory, but the two paths share the characters of the home
    directory, the test of [is_within_home_dir] passes, and git is run. *)
Theorem passthrough_runs_outside_home :
  HOME Scenario.status_elsewhere = Some "/home/bob"
  ∧ getcwd Scenario.status_elsewhere = "/home/bobby"
  ∧ ¬ path_within "/home/bob" "/home/bobby"
  ∧ (is_within_home_dir Scenario.status_elsewhere (Scenario.start Scenario.tracked)).1
    = inl true
  ∧ st_events (main Scenario.status_elsewhere (Scenario.start Scenario.tracked)).2
    = [EvIsdir "/home/bob/.homegit/default";
       EvRun [Scenario.git; "--git-dir=/home/bob/.homegit/default";
              "--work-tree=/home/bob"; "status"] None]
  ∧ (main Scenario.status_elsewhere (Scenario.start Scenario.tracked)).1
    = inr (SystemExit (ExitCode 0)).
Proof.
  split; [by vm_compute|]. split; [done|]. split.
  - apply (bool_decide_eq_false_1 (path_within "/home/bob" "/home/bobby")).
    vm_compute. reflexivity.
  - vm_compute. done.
Qed.

(** ** Clone and Init *)

Section Lifecycle.

Context (w : World).

(** What [get_remote_origin_url] returns is never a [str]. *)
Lemma get_remote_origin_url_not_str (st : State) (v : pyval) (st' : State) (s : string) :
  get_remote_origin_url w st = (inl v, st') → py_eq v (PyStr s) = false.
Proof.
  unfold get_remote_origin_url. rewrite bind_unfold.
  destruct (run w _ _ st) as [[cp|e] st1]; [|done].
  intros [= <- _].
  destruct (cp_returncode cp =? 0); [|done]. by destruct (cp_stdout cp).
Qed.

(** How [get_remote_origin_url] can fail: not at all when the executable
    is launched, since it runs without [check]. *)
Lemma get_remote_origin_url_raises (st : State) (e : exn) (st' : State) :
  get_remote_origin_url w st = (inr e, st') → e = FileNotFoundError ∨ e = TypeError.
Proof.
  unfold get_remote_origin_url. rewrite bind_unfold.
  destruct (GIT_EXECUTABLE w) as [g|].
  - rewrite (run_unfold w g
               ["--git-dir=" ++ BARE_REPO_DIR w; "--work-tree=" ++ PyStr.fmt (HOME w);
                "config"; "--get"; "remote.origin.url"]).
    cbn zeta. simpl kw_cwd. simpl kw_check. simpl default. simpl andb.
    rewrite launch_error_here.
    destruct (can_exec w g); [done|]. intros [= <- _]. by left.
  - rewrite run_no_program. intros [= <- _]. by right.
Qed.

(** Clone on a bare-repo directory that exists never gets to the
    "already cloned" exit: whatever the requested URL and whatever the
    executable answers, it ends with [ExistingRepoDir], or with the error
    of an executable that could not be run. *)
Lemma clone_repo_present (git_repo_url : string) (st : State) :
  FS.isdir (st_fs st) (resolve w (BARE_REPO_DIR w)) = true →
  (clone_repo w git_repo_url st).1 = inr ExistingRepoDir
  ∨ (clone_repo w git_repo_url st).1 = inr FileNotFoundError
  ∨ (clone_repo w git_repo_url st).1 = inr TypeError.
Proof.
  intros Hd. unfold clone_repo.
  rewrite bind_unfold, bare_repo_dir_exists_unfold, Hd. cbn beta iota.
  rewrite bind_unfold.
  destruct (get_remote_origin_url w _) as [[v|e] st1] eqn:Hurl.
  - rewrite (get_remote_origin_url_not_str _ _ _ git_repo_url Hurl). by left.
  - destruct (get_remote_origin_url_raises _ _ _ Hurl) as [-> | ->]; auto.
Qed.

(** Init without a path of the executable: the call of [run] fails on
    its first argument, after the look at the bare-repo directory. *)
Lemma init_repo_no_program (st : State) :
  GIT_EXECUTABLE w = None →
  FS.isdir (st_fs st) (resolve w (BARE_REPO_DIR w)) = false →
  init_repo w st = (inr TypeError, with_events [EvIsdir (BARE_REPO_DIR w)] st).
Proof.
  intros Hg Hd. unfold init_repo.
  rewrite bind_unfold, bare_repo_dir_exists_unfold, Hd. cbn beta iota.
  rewrite when_false, ret_bind, Hg, bind_unfold. unfold try_except.
  by rewrite run_no_program.
Qed.

(** C3, amended: Init with the bare-repo directory absent and the storage
    root present.  When a path of the executable is known, Init calls it
    with [init --bare] and the path of the bare repository, from the
    storage root, after having looked at the bare-repo directory and
    nothing else: when the executable ends with a status other than 0,
    [InitFailure] is raised; when it cannot be launched, the
    [FileNotFoundError] of the launch is what is raised, and Init ends
    with the message about the executable, not with the one of
    [InitFailure].  When no path of the executable is known, Init calls
    nothing and ends with a [TypeError] that nobody catches. *)
Theorem init_repo_outcomes (st : State) :
  FS.isdir (st_fs st) (resolve w (BARE_REPO_DIR w)) = false →
  FS.isdir (st_fs st) (resolve w (HOMEGIT_DIR w)) = true →
  match GIT_EXECUTABLE w with
  | Some g =>
      let args := [g; "init"; "--bare"; BARE_REPO_DIR w] in
      let r := tool w args (HOMEGIT_DIR w) (st_fs st) in
      st_events (init_repo w st).2
        = (st_events st ++ [EvIsdir (BARE_REPO_DIR w); EvRun args (Some (HOMEGIT_DIR w))])%list
      ∧ (can_exec w g = true → tr_returncode r ≠ 0 →
         (init_repo w st).1 = inr InitFailure
         ∧ (run_init w st).1
           = inr (SystemExit (ExitMsg ("Error initializing repo (" ++ HOMEGIT_REPO w ++ ")"))))
      ∧ (can_exec w g = true → tr_returncode r = 0 →
         (init_repo w st).1 = inl tt ∧ st_fs (init_repo w st).2 = tr_fs r)
      ∧ (can_exec w g = false →
         (init_repo w st).1 = inr FileNotFoundError
         ∧ st_fs (init_repo w st).2 = st_fs st
         ∧ (run_init w st).1
           = inr (SystemExit
                    (ExitMsg ("Error executing git: No such file or directory: " ++ g))))
  | None =>
      init_repo w st = (inr TypeError, with_events [EvIsdir (BARE_REPO_DIR w)] st)
      ∧ run_init w st = (inr TypeError, with_events [EvIsdir (BARE_REPO_DIR w)] st)
  end.
Proof.
  intros Hd Hroot. destruct (GIT_EXECUTABLE w) as [g|] eqn:Hg.
  - intros args r.
    assert (init_repo w st =
      let st1 := with_events [EvRun args (Some (HOMEGIT_DIR w))]
                   (announced w args (with_events [EvIsdir (BARE_REPO_DIR w)] st)) in
      if can_exec w g
      then (if tr_returncode r =? 0 then inl tt else inr InitFailure, with_fs (tr_fs r) st1)
      else (inr FileNotFoundError, st1)) as Hinit.
    { unfold init_repo.
      rewrite bind_unfold, bare_repo_dir_exists_unfold, Hd. cbn beta iota.
      rewrite when_false, ret_bind, Hg, bind_unfold. unfold try_except.
      rewrite (run_unfold w g ["init"; "--bare"; BARE_REPO_DIR w]).
      cbn zeta. simpl kw_cwd. simpl kw_check. simpl default.
      change (st_fs (with_events ?e ?s)) with (st_fs s).
      rewrite (launch_error_there w _ _ g Hroot). fold args. fold r.
      destruct (can_exec w g); [|done].
      destruct (tr_returncode r =? 0) eqn:Hrc; simpl; rewrite ?Hrc; reflexivity. }
    assert (∀ s, st_events (announced w args s) = st_events s) as Hev
      by (intros s; unfold announced; by destruct (VERBOSE w)).
    assert (∀ s, st_fs (announced w args s) = st_fs s) as Hfs
      by (intros s; unfold announced; by destruct (VERBOSE w)).
    unfold run_init, friendly_error_messages, try_except.
    rewrite bind_unfold, Hinit. cbn zeta.
    split; [|split; [|split]].
    + destruct (can_exec w g); simpl; rewrite Hev; simpl; by rewrite <- app_assoc.
    + intros -> Hrc. apply Z.eqb_neq in Hrc. rewrite Hrc. done.
    + intros -> Hrc. apply Z.eqb_eq in Hrc. rewrite Hrc. done.
    + intros ->. simpl. rewrite Hfs, Hg. done.
  - pose proof (init_repo_no_program st Hg Hd) as Hinit.
    split; [exact Hinit|].
    unfold run_init, friendly_error_messages, try_except.
    by rewrite bind_unfold, Hinit.
Qed.

End Lifecycle.

(** C3 on [homegit init] where git ends with status 128. *)
Lemma init_repo_outcomes_witness :
  (init_repo Scenario.init_fails (Scenario.start Scenario.untracked)).1 = inr InitFailure.
Proof.
  pose proof (init_repo_outcomes Scenario.init_fails
                (Scenario.start Scenario.untracked)) as H.
  assert (GIT_EXECUTABLE Scenario.init_fails = Some Scenario.git) as Hg
    by (vm_compute; reflexivity).
  rewrite Hg in H.
  destruct H as (_ & H & _); [vm_compute; reflexivity..|].
  apply H; vm_compute; [reflexivity|discriminate].
Defined.

(** C3 as stated fails: [homegit init] where git cannot be launched
    raises [FileNotFoundError], not [InitFailure], and ends with the
    message about the executable. *)
Lemma init_launch_failure_is_not_InitFailure :
  FS.isdir Scenario.untracked
    (resolve Scenario.init_no_git (BARE_REPO_DIR Scenario.init_no_git)) = false
  ∧ (init_repo Scenario.init_no_git (Scenario.start Scenario.untracked)).1
    = inr FileNotFoundError
  ∧ (init_repo Scenario.init_no_git (Scenario.start Scenario.untracked)).1
    ≠ inr InitFailure
  ∧ (main Scenario.init_no_git (Scenario.start Scenario.untracked)).1
    = inr (SystemExit
             (ExitMsg "Error executing git: No such file or directory: /usr/bin/git")).
Proof. vm_compute. repeat split; discriminate. Qed.

(** Init does not create the storage root: on a home directory without
    one, [homegit init] makes no directory, the launch from the missing
    storage root fails, and the storage root is still missing. *)
Lemma init_leaves_storage_root_missing :
  FS.isdir Scenario.bare_home
    (resolve Scenario.init_lower (HOMEGIT_DIR Scenario.init_lower)) = false
  ∧ st_events (main Scenario.init_lower (Scenario.start Scenario.bare_home)).2
    = [EvIsdir "/home/bob/.homegit/default";
       EvRun [Scenario.git; "init"; "--bare"; "/home/bob/.homegit/default"]
         (Some "/home/bob/.homegit")]
  ∧ (main Scenario.init_lower (Scenario.start Scenario.bare_home)).1
    = inr (SystemExit
             (ExitMsg "Error executing git: No such file or directory: /usr/bin/git"))
  ∧ FS.isdir (st_fs (main Scenario.init_lower (Scenario.start Scenario.bare_home)).2)
      (resolve Scenario.init_lower (HOMEGIT_DIR Scenario.init_lower)) = false.
Proof. vm_compute. done. Qed.

(** C2 fails on the code: [homegit clone] of the URL the repository was
    cloned from.  Git answers the question about the origin with that
    URL, as bytes and with a newline; compared with the [str] of the
    command line it is different, and the script ends with the
    "Existing repo" message and status 1, without the "already cloned"
    notice. *)
Theorem clone_again_is_refused :
  argv Scenario.clone_again = ["homegit"; "clone"; Scenario.url]
  ∧ tr_stdout (tool Scenario.clone_again
                 [Scenario.git; "--git-dir=/home/bob/.homegit/default";
                  "--work-tree=/home/bob"; "config"; "--get"; "remote.origin.url"]
                 "/home/bob" Scenario.tracked)
    = app (list_byte_of_string Scenario.url) [Scenario.newline]
  ∧ (main Scenario.clone_again (Scenario.start Scenario.tracked)).1
    = inr (SystemExit (ExitMsg "Existing repo: default (/home/bob/.homegit/default)"))
  ∧ exit_status (main Scenario.clone_again (Scenario.start Scenario.tracked)).1 = 1
  ∧ st_stdout (main Scenario.clone_again (Scenario.start Scenario.tracked)).2 = [].
Proof. vm_compute. done. Qed.

(** ** What the script prints *)

Lemma string_app_inv_head (p a b : string) : p ++ a = p ++ b → a = b.
Proof. induction p as [|c p IH]; simpl; [done|]. intros [= ?]. auto. Qed.

Lemma string_app_length (a b : string) :
  String.length (a ++ b) = (String.length a + String.length b)%nat.
Proof. induction a as [|c a IH]; simpl; [done|]. by rewrite IH. Qed.

Lemma string_app_inv_tail (a b t : string) : a ++ t = b ++ t → a = b.
Proof.
  revert b. induction a as [|c a IH]; intros [|d b]; simpl; intros H.
  - done.
  - apply (f_equal String.length) in H. simpl in H.
    rewrite !string_app_length in H. simpl in H. lia.
  - apply (f_equal String.length) in H. simpl in H.
    rewrite !string_app_length in H. simpl in H. lia.
  - injection H as -> H. f_equal. by apply IH.
Qed.

#[global] Instance ignoring_line_inj : Inj (=) (=) ignoring_line.
Proof.
  intros a b H. unfold ignoring_line in H.
  apply string_app_inv_head, string_app_inv_head in H.
  by apply string_app_inv_tail in H.
Qed.


Section Appends.

Context (P : string → Prop).

Lemma appends_ret {A} (a : A) : appends P (mret a).
Proof. intros st. exists []. by rewrite app_nil_r. Qed.

Lemma appends_raise {A} (e : exn) : appends P (@raise A e).
Proof. intros st. exists []. by rewrite app_nil_r. Qed.

Lemma appends_bind {A B} (m : M A) (k : A → M B) :
  appends P m → (∀ a, appends P (k a)) → appends P (m ≫= k).
Proof.
  intros Hm Hk st. rewrite bind_unfold.
  destruct (Hm st) as (out1 & E1 & F1). destruct (m st) as [[a|e] st1]; simpl in E1.
  - destruct (Hk a st1) as (out2 & E2 & F2). exists (out1 ++ out2)%list.
    rewrite E2, E1, <- app_assoc. split; [done|]. by apply Forall_app.
  - by exists out1.
Qed.

Lemma appends_try_except {A} (m : M A) (h : exn → M A) :
  appends P m → (∀ e, appends P (h e)) → appends P (try_except m h).
Proof.
  intros Hm Hh st. unfold try_except.
  destruct (Hm st) as (out1 & E1 & F1). destruct (m st) as [[a|e] st1]; simpl in E1.
  - by exists out1.
  - destruct (Hh e st1) as (out2 & E2 & F2). exists (out1 ++ out2)%list.
    rewrite E2, E1, <- app_assoc. split; [done|]. by apply Forall_app.
Qed.

Lemma appends_when (b : bool) (m : M unit) : appends P m → appends P (when b m).
Proof. destruct b; [done|]. intros _. apply appends_ret. Qed.

Lemma appends_print (line : string) : P line → appends P (print line).
Proof. intros Hl st. exists [line]. split; [done|]. by constructor. Qed.

Lemma appends_log (ev : Event) : appends P (log ev).
Proof. intros st. exists []. simpl. by rewrite app_nil_r. Qed.

Lemma appends_get_fs : appends P get_fs.
Proof. intros st. exists []. simpl. by rewrite app_nil_r. Qed.

Lemma appends_put_fs (fs : FS.t) : appends P (put_fs fs).
Proof. intros st. exists []. simpl. by rewrite app_nil_r. Qed.

End Appends.

(** Proves that a function of the script prints no warning line, from
    the same for what it is made of. *)
Ltac quiet :=
  repeat first
    [ match goal with
      | H : _ |- appends _ _ => apply H
      end
    | apply appends_bind; [|intros ?]
    | apply appends_try_except; [|intros ?]
    | apply appends_when
    | apply appends_ret
    | apply appends_raise
    | apply appends_log
    | apply appends_get_fs
    | apply appends_put_fs
    | apply appends_print; reflexivity
    | match goal with
      | |- appends _ (match ?x with _ => _ end) => destruct x
      end ].

Section Quiet.

Context (w : World).

Lemma quiet_os_path_isdir (path : string) : appends not_warning (os_path_isdir w path).
Proof. unfold os_path_isdir. quiet. Qed.

Lemma quiet_os_mkdir (path : string) : appends not_warning (os_mkdir w path).
Proof. unfold os_mkdir. quiet. Qed.

Lemma quiet_shutil_rmtree (path : string) : appends not_warning (shutil_rmtree w path).
Proof. unfold shutil_rmtree. quiet. Qed.

Lemma quiet_subprocess_run (command : list (option string)) (kw : RunKwargs) :
  appends not_warning (subprocess_run w command kw).
Proof. unfold subprocess_run. quiet. Qed.

Lemma quiet_run (command : list (option string)) (kw : RunKwargs) :
  appends not_warning (run w command kw).
Proof. unfold run. pose proof quiet_subprocess_run. quiet. Qed.

Lemma quiet_clone_repo (git_repo_url : string) :
  appends not_warning (clone_repo w git_repo_url).
Proof.
  pose proof quiet_run. pose proof quiet_os_path_isdir. pose proof quiet_os_mkdir.
  unfold clone_repo, bare_repo_dir_exists, get_remote_origin_url, sys_exit. quiet.
Qed.

Lemma quiet_init_repo : appends not_warning (init_repo w).
Proof.
  pose proof quiet_run. pose proof quiet_os_path_isdir.
  unfold init_repo, bare_repo_dir_exists. quiet.
Qed.

Lemma quiet_do_not_show_untracked_files :
  appends not_warning (do_not_show_untracked_files w).
Proof. pose proof quiet_run. unfold do_not_show_untracked_files. quiet. Qed.

Lemma quiet_dispatch (c : option Command) : appends not_warning (dispatch w c).
Proof.
  pose proof quiet_run. pose proof quiet_os_path_isdir.
  pose proof quiet_shutil_rmtree. pose proof quiet_clone_repo.
  pose proof quiet_init_repo. pose proof quiet_do_not_show_untracked_files.
  destruct c as [[]|]; simpl.
  - unfold run_init, friendly_error_messages, sys_exit. quiet.
  - unfold run_clone, checkout_repo, friendly_error_messages, sys_exit.
    destruct (argv w) as [|a0 [|a1 [|a2 [|a3 rest]]]]; quiet.
  - unfold run_help. quiet.
  - unfold run_version. quiet.
  - unfold run_untrack. quiet.
  - unfold run_git, bare_repo_dir_exists, is_within_home_dir,
      friendly_error_messages, sys_exit. quiet.
  - unfold run_help. quiet.
Qed.

End Quiet.

(** ** Ignored arguments *)

(** The command is the entry of the table for the first token; no other
    token takes part. *)
Lemma parse_command_lookup (w : World) :
  command (parse_command w)
  = (λ tok, default GIT (command_dict !! tok)) <$> argv w !! 1%nat.
Proof.
  rewrite parse_command_first_token. by destruct (argv w) as [|prog [|tok rest]].
Qed.

Section Ignored.

Context (w : World).





End Ignored.


(** ** Configuration, help and version *)


Lemma print_unfold (line : string) (st : State) :
  print line st = (inl tt, with_lines [line] st).
Proof. reflexivity. Qed.

Section Plain.

Context (w : World).

(** X1: without [HOME] in the environment every invocation, whatever its
    arguments and the rest of the environment, ends with the message
    about [HOME] and status 1 before anything else happens: nothing is
    printed, nothing is looked at and nothing is run. *)
Theorem main_without_home (st : State) :
  HOME w = None →
  main w st
  = (inr (SystemExit (ExitMsg "You must set a value of the HOME environment vairable")), st)
  ∧ exit_status (main w st).1 = 1
  ∧ printed (main w) st = []
  ∧ performed (main w) st = [].
Proof.
  intros Hh. unfold printed, performed. rewrite (main_no_home w st Hh).
  repeat split; apply drop_all.
Qed.


(** X3: an invocation without arguments and one whose first token is
    [help], [--help] or [-h] print the warnings for the ignored arguments,
    then the five usage lines, and return with status 0; nothing is looked
    at, created or run. *)
Theorem help_prints_usage (h : string) (st : State) :
  HOME w = Some h →
  (argv w !! 1%nat = None
   ∨ ∃ tok, argv w !! 1%nat = Some tok ∧ tok ∈ ["help"; "--help"; "-h"]) →
  main w st = (inl tt, with_lines usage (warned w st))
  ∧ exit_status (main w st).1 = 0
  ∧ performed (main w) st = [].
Proof.
  intros Hh Htok. unfold performed.
  assert (main w st = (inl tt, with_lines usage (warned w st))) as ->.
  { rewrite (main_dispatch w h st Hh), parse_command_lookup.
    assert (dispatch w ((λ tok, default GIT (command_dict !! tok)) <$> argv w !! 1%nat)
            = run_help) as ->.
    { destruct Htok as [-> | (tok & -> & Htok)]; [done|].
      rewrite !elem_of_cons, elem_of_nil in Htok. simpl.
      rewrite command_dict_lookup.
      destruct Htok as [-> | [-> | [-> | []]]]; reflexivity. }
    unfold run_help. mrun. unfold with_lines; simpl.
    by rewrite <- !app_assoc. }
  repeat split. apply drop_all.
Qed.

(** X4: an invocation whose first token is [version], [--version] or
    [-v] prints the version of the script and calls the executable with
    [--version], without [check]: whatever status the executable ends
    with, the script returns with status 0.  The call is not under the
    error translation: an executable that cannot be launched ends the
    script with the raw [FileNotFoundError], and a missing one with a
    [TypeError], both after the version line is printed. *)
Theorem version_ignores_status (h : string) (st : State) :
  HOME w = Some h →
  (∃ tok, argv w !! 1%nat = Some tok ∧ tok ∈ ["version"; "--version"; "-v"]) →
  let named := with_lines ["homegit version 0.1.4"] (warned w st) in
  (GIT_EXECUTABLE w = None → main w st = (inr TypeError, named))
  ∧ (∀ g, GIT_EXECUTABLE w = Some g →
       let called :=
         with_events [EvRun [g; "--version"] None] (announced w [g; "--version"] named) in
       (can_exec w g = false → main w st = (inr FileNotFoundError, called))
       ∧ (can_exec w g = true →
          main w st
          = (inl tt,
             with_fs (tr_fs (tool w [g; "--version"] (getcwd w) (st_fs st))) called)
          ∧ exit_status (main w st).1 = 0)).
Proof.
  intros Hh (tok & Htok & Hin) named.
  assert (main w st = run_version w (warned w st)) as ->.
  { rewrite (main_dispatch w h st Hh), parse_command_lookup, Htok.
    rewrite !elem_of_cons, elem_of_nil in Hin. simpl.
    rewrite command_dict_lookup.
    destruct Hin as [-> | [-> | [-> | []]]]; reflexivity. }
  unfold run_version.
  rewrite bind_unfold, print_unfold. cbn beta iota. rewrite bind_unfold.
  change ("homegit version " ++ version) with "homegit version 0.1.4".
  fold named. split.
  - intros ->. by rewrite run_no_program.
  - intros g Hg. rewrite Hg, (run_unfold w g ["--version"]). cbn zeta.
    simpl kw_cwd. simpl kw_check. simpl default. simpl andb.
    rewrite launch_error_here.
    split; intros ->; done.
Qed.

End Plain.

(** ** The test on the working directory *)

Lemma common2_eq_iff (a b : string) :
  PyStr.common2 a b = b ↔ PyStr.startswith b a = true.
Proof.
  revert a. induction b as [|y b IH]; intros [|x a]; simpl; try done.
  rewrite (Ascii.eqb_sym y x).
  destruct (Ascii.eqb_spec x y) as [->|Hxy].
  - rewrite <- IH. split; [by intros [= ->]|by intros ->].
  - done.
Qed.

(** X5: [is_within_home_dir] compares characters, not directories: it
    answers [True] exactly when the normalised home directory is a prefix
    of the working directory as a string, and it changes nothing. *)
Theorem is_within_home_dir_prefix_test (w : World) (h : string) (st : State) :
  HOME w = Some h →
  is_within_home_dir w st
  = (inl (PyStr.startswith (PosixPath.abspath (getcwd w) h) (getcwd w)), st).
Proof.
  intros Hh. rewrite (is_within_home_dir_unfold w h st Hh). do 2 f_equal.
  unfold shares_home_prefix, PosixPath.commonprefix. simpl fold_left.
  apply eq_true_iff_eq. rewrite String.eqb_eq. apply common2_eq_iff.
Qed.

(** ** The error translation *)

(** X6: [friendly_error_messages] leaves the state of its body alone,
    hands a normal result through, and turns each of [CloneFailure],
    [ExistingRepoDir], [FileNotFoundError], [InitFailure] and
    [SettingShowUntrackedFilesFailure] into a [sys.exit] with a message,
    so none of them leaves it and the status is 1.  Every other exception
    leaves it as it came: a [sys.exit] of the body keeps its status, and
    [MissingRepoDir], which the script declares, has no message. *)
Theorem friendly_error_messages_translates {A} (w : World) (body : M A) (st : State) :
  (friendly_error_messages w body st).2 = (body st).2
  ∧ (∀ a, (body st).1 = inl a → (friendly_error_messages w body st).1 = inl a)
  ∧ (∀ e, (body st).1 = inr e → translated e = false →
          (friendly_error_messages w body st).1 = inr e)
  ∧ (∀ e, (body st).1 = inr e → translated e = true →
          ∃ msg, (friendly_error_messages w body st).1 = inr (SystemExit (ExitMsg msg)))
  ∧ (∀ e, translated e = true → (friendly_error_messages w body st).1 ≠ inr e)
  ∧ translated MissingRepoDir = false.
Proof.
  unfold friendly_error_messages, try_except.
  destruct (body st) as [[a|e] st1]; simpl.
  - repeat split; done.
  - split; [by destruct e|]. split; [done|]. split; [|split; [|split; [|done]]].
    + intros e' [= <-] He. by destruct e.
    + intros e' [= <-] He. destruct e; try done; eauto.
    + intros e' He'. destruct e; destruct e'; done.
Qed.

(** ** The wrapper of [subprocess.run] *)

Lemma as_strings_inv (command : list (option string)) (args : list string) :
  as_strings command = Some args → command = map Some args.
Proof.
  unfold as_strings. revert args.
  induction command as [|[x|] command IH]; intros args; simpl.
  - by intros [= <-].
  - destruct (mapM id command) as [l|]; simpl; [|done].
    intros [= <-]. simpl. f_equal. by apply IH.
  - done.
Qed.

Section Wrapper.

Context (w : World).

Lemma run_result_status (command : list (option string)) (kw : RunKwargs)
    (st st' : State) (cp : CompletedProcess) :
  kw_check kw ≠ Some false →
  run w command kw st = (inl cp, st') →
  cp_returncode cp = 0.
Proof.
  intros Hcheck.
  assert (default true (kw_check kw) = true) as Hdef
    by (by destruct (kw_check kw) as [[]|]).
  destruct (as_strings command) as [[|exe rest]|] eqn:E.
  - unfold run, subprocess_run. rewrite E. by destruct (VERBOSE w).
  - apply as_strings_inv in E. subst command.
    change (map Some (exe :: rest)) with (Some exe :: map Some rest).
    rewrite run_unfold. cbn zeta. rewrite Hdef.
    destruct (launch_error _ _ _ _); [done|]. simpl andb.
    destruct (tr_returncode _ =? 0) eqn:Hrc; [|done].
    intros [= <- _]. by apply Z.eqb_eq.
  - unfold run, subprocess_run. rewrite E. by destruct (VERBOSE w).
Qed.

(** Binds that start with the same action and go on alike are alike. *)
Lemma bind_ext_r {A B} (m : M A) (k k' : A → M B) (st : State) :
  (∀ a s, k a s = k' a s) → (m ≫= k) st = (m ≫= k') st.
Proof.
  intros Hk. rewrite !bind_unfold. destruct (m st) as [[a|e] s]; [apply Hk|done].
Qed.

(** After a checked call of [run] under a handler that only raises, a
    test of the status has nothing left to find. *)
Lemma checked_run_test_is_idle (command : list (option string)) (kw : RunKwargs)
    (handler : exn → M CompletedProcess) (e : exn) (st : State) :
  kw_check kw ≠ Some false →
  (∀ x s, ∃ e' s', handler x s = (inr e', s')) →
  (completed_process ← try_except (run w command kw) handler;
   when (negb (cp_returncode completed_process =? 0)) (raise e)) st
  = (try_except (run w command kw) handler;; mret tt) st.
Proof.
  intros Hcheck Hh. rewrite !bind_unfold. unfold try_except.
  destruct (run w command kw st) as [[cp|x] s] eqn:Hrun.
  - by rewrite (run_result_status _ _ _ _ _ Hcheck Hrun).
  - by destruct (Hh x s) as (e' & s' & ->).
Qed.

(** X7: unless it is called with [check=False], [run] gives a result
    back exactly for an executable that ended with status 0, and raises
    [CalledProcessError] with the status for every other one; with
    [check=False] it gives the result back whatever the status.  The
    tests of the status that [init_repo], [clone_repo] and
    [do_not_show_untracked_files] make after their call of [run] therefore
    never find anything: each of the three does what it would do with
    its last statement taken out. *)
Theorem run_checks_unless_told :
  (∀ (g : string) (rest : list string) (kw : RunKwargs) (st : State),
     launch_error w (st_fs st) (kw_cwd kw) g = None →
     let r := tool w (g :: rest) (default (getcwd w) (kw_cwd kw)) (st_fs st) in
     let completed_process :=
       {| cp_stdout := if kw_capture_output kw then Some (tr_stdout r) else None;
          cp_returncode := tr_returncode r |} in
     (kw_check kw ≠ Some false → tr_returncode r = 0 →
      (run w (Some g :: map Some rest) kw st).1 = inl completed_process)
     ∧ (kw_check kw ≠ Some false → tr_returncode r ≠ 0 →
        (run w (Some g :: map Some rest) kw st).1
        = inr (CalledProcessError (tr_returncode r)))
     ∧ (kw_check kw = Some false →
        (run w (Some g :: map Some rest) kw st).1 = inl completed_process))
  ∧ (∀ (command : list (option string)) (kw : RunKwargs) (st st' : State)
       (completed_process : CompletedProcess),
       kw_check kw ≠ Some false →
       run w command kw st = (inl completed_process, st') →
       cp_returncode completed_process = 0)
  ∧ (∀ st : State,
       init_repo w st
       = (dir_exists ← bare_repo_dir_exists w;
          when dir_exists (raise ExistingRepoDir);;
          try_except
            (run w [GIT_EXECUTABLE w; Some "init"; Some "--bare"; Some (BARE_REPO_DIR w)]
               {| kw_cwd := Some (HOMEGIT_DIR w); kw_check := None;
                  kw_capture_output := false |})
            (λ e, match e with
                  | CalledProcessError _ => raise InitFailure
                  | _ => raise e
                  end);;
          mret tt) st)
  ∧ (∀ (git_repo_url : string) (st : State),
       clone_repo w git_repo_url st
       = (dir_exists ← bare_repo_dir_exists w;
          existing_repo_url ←
            (if dir_exists : bool then get_remote_origin_url w else mret PyNone);
          when dir_exists
            (when (negb (py_eq existing_repo_url (PyStr git_repo_url)))
               (raise ExistingRepoDir));;
          when (py_eq existing_repo_url (PyStr git_repo_url))
            (print ("Repo (" ++ HOMEGIT_REPO w ++ ") is already cloned");;
             sys_exit (ExitCode 0));;
          try_except (os_mkdir w (HOMEGIT_DIR w))
            (λ e, match e with
                  | FileExistsError => mret tt
                  | _ => raise e
                  end);;
          os_mkdir w (BARE_REPO_DIR w);;
          try_except
            (run w [GIT_EXECUTABLE w; Some "clone"; Some "--bare"; Some git_repo_url;
                    Some (BARE_REPO_DIR w)] no_kwargs)
            (λ e, match e with
                  | CalledProcessError _ => raise CloneFailure
                  | _ => raise e
                  end);;
          mret tt) st)
  ∧ (∀ st : State,
       do_not_show_untracked_files w st
       = (try_except
            (run w [GIT_EXECUTABLE w;
                    Some ("--git-dir=" ++ BARE_REPO_DIR w);
                    Some ("--work-tree=" ++ PyStr.fmt (HOME w));
                    Some "config"; Some "--local"; Some "status.showUntrackedFiles";
                    Some "no"]
               {| kw_cwd := Some (HOMEGIT_DIR w); kw_check := None;
                  kw_capture_output := false |})
            (λ e, match e with
                  | CalledProcessError _ => raise SettingShowUntrackedFilesFailure
                  | _ => raise e
                  end);;
          mret tt) st).
Proof.
  assert (∀ (e' : exn) (x : exn) (s : State),
            ∃ e0 s0,
              (λ e : exn, match e with
                          | CalledProcessError _ => @raise CompletedProcess e'
                          | _ => raise e
                          end) x s = (inr e0, s0)) as Hraises
    by (intros e' x s; destruct x; eexists _, _; reflexivity).
  split; [|split; [|split; [|split]]].
  - intros g rest kw st Hlaunch r completed_process.
    rewrite run_unfold. cbn zeta. rewrite Hlaunch. fold r.
    split; [|split].
    + intros Hcheck Hrc. apply Z.eqb_eq in Hrc. rewrite Hrc.
      by rewrite andb_false_r.
    + intros Hcheck Hrc. apply Z.eqb_neq in Hrc. rewrite Hrc.
      by destruct (kw_check kw) as [[]|].
    + by intros ->.
  - intros command kw st st' cp. apply run_result_status.
  - intros st. unfold init_repo.
    apply bind_ext_r. intros dir_exists s.
    apply bind_ext_r. intros _ s'. cbn zeta.
    apply checked_run_test_is_idle; [done|apply Hraises].
  - intros url st. unfold clone_repo.
    do 6 (apply bind_ext_r; intros ? ?). cbn zeta.
    apply checked_run_test_is_idle; [done|apply Hraises].
  - intros st. unfold do_not_show_untracked_files. cbn zeta.
    apply checked_run_test_is_idle; [done|apply Hraises].
Qed.

End Wrapper.

(** ** The exit status *)

Lemma yields_bind {A B} (Q : A → Prop) (R : B → Prop) (m : M A) (k : A → M B) :
  yields Q m → (∀ a, Q a → yields R (k a)) → yields R (m ≫= k).
Proof.
  intros Hm Hk st. rewrite bind_unfold. specialize (Hm st).
  destruct (m st) as [[a|e] st1]; simpl in *; [|done]. by apply Hk.
Qed.

Lemma yields_try_except {A} (Q : A → Prop) (m : M A) (h : exn → M A) :
  yields Q m → (∀ e, civil e → yields Q (h e)) → yields Q (try_except m h).
Proof.
  intros Hm Hh st. unfold try_except. specialize (Hm st).
  destruct (m st) as [[a|e] st1]; simpl in *; [done|]. by apply Hh.
Qed.

Lemma tame_ret {A} (a : A) : tame (mret a).
Proof. by intros st. Qed.

Lemma tame_raise {A} (e : exn) : civil e → tame (@raise A e).
Proof. by intros He st. Qed.

Lemma tame_bind {A B} (m : M A) (k : A → M B) :
  tame m → (∀ a, tame (k a)) → tame (m ≫= k).
Proof. intros Hm Hk. apply (yields_bind (λ _, True)); [done|]. intros a _. apply Hk. Qed.

Lemma tame_try_except {A} (m : M A) (h : exn → M A) :
  tame m → (∀ e, civil e → tame (h e)) → tame (try_except m h).
Proof. apply yields_try_except. Qed.

Lemma tame_when (b : bool) (m : M unit) : tame m → tame (when b m).
Proof. destruct b; [done|]. intros _. apply tame_ret. Qed.

Lemma tame_print (line : string) : tame (print line).
Proof. by intros st. Qed.

Lemma tame_log (ev : Event) : tame (log ev).
Proof. by intros st. Qed.

Lemma tame_get_fs : tame get_fs.
Proof. by intros st. Qed.

Lemma tame_put_fs (fs : FS.t) : tame (put_fs fs).
Proof. by intros st. Qed.

Lemma tame_for_each {A} (xs : list A) (body : A → M unit) :
  (∀ x, tame (body x)) → tame (for_each xs body).
Proof.
  intros Hb. induction xs as [|x xs IH]; simpl; [apply tame_ret|].
  apply tame_bind; [apply Hb|]. by intros _.
Qed.

(** Proves that a function of the script is tame, from the same for what
    it is made of. *)
Ltac tame :=
  repeat first
    [ match goal with
      | H : _ |- tame _ => apply H
      end
    | apply tame_bind; [|intros ?]
    | apply tame_try_except; [|intros ? ?]
    | apply tame_when
    | apply tame_ret
    | apply tame_raise; done
    | apply tame_print
    | apply tame_log
    | apply tame_get_fs
    | apply tame_put_fs
    | match goal with
      | |- tame (match ?x with _ => _ end) => destruct x
      end ].

Section Tame.

Context (w : World).

Lemma tame_os_path_isdir (path : string) : tame (os_path_isdir w path).
Proof. unfold os_path_isdir. tame. Qed.

Lemma tame_os_mkdir (path : string) : tame (os_mkdir w path).
Proof.
  unfold os_mkdir. apply tame_bind; [apply tame_log|intros _].
  apply tame_bind; [apply tame_get_fs|intros fs].
  destruct (FS.mkdir fs _) as [e|fs'] eqn:E; [|apply tame_put_fs].
  apply tame_raise. revert E. unfold FS.mkdir.
  repeat match goal with
         | |- context [match ?x with _ => _ end] => destruct x
         end; by intros [= <-].
Qed.

Lemma tame_shutil_rmtree (path : string) : tame (shutil_rmtree w path).
Proof.
  unfold shutil_rmtree. apply tame_bind; [apply tame_log|intros _].
  apply tame_bind; [apply tame_get_fs|intros fs].
  destruct (FS.rmtree fs _) as [e|fs'] eqn:E; [|apply tame_put_fs].
  apply tame_raise. revert E. unfold FS.rmtree.
  repeat match goal with
         | |- context [match ?x with _ => _ end] => destruct x
         end; by intros [= <-].
Qed.

Lemma launch_error_civil (fs : FS.t) (cwd : option string) (exe : string) (e : exn) :
  launch_error w fs cwd exe = Some e → civil e.
Proof.
  unfold launch_error.
  repeat match goal with
         | |- context [match ?x with _ => _ end] => destruct x
         end; by intros [= <-].
Qed.

(** [run] raises civil exceptions, and with [check] left alone it
    returns only a status 0. *)
Lemma yields_run (command : list (option string)) (kw : RunKwargs) :
  yields (λ cp, kw_check kw ≠ Some false → cp_returncode cp = 0) (run w command kw).
Proof.
  intros st. destruct (run w command kw st) as [[cp|e] st'] eqn:E; simpl.
  - intros Hc. by eapply run_result_status.
  - revert E. destruct (as_strings command) as [[|exe rest]|] eqn:Ec.
    + unfold run, subprocess_run. rewrite Ec. destruct (VERBOSE w); by intros [= <- _].
    + apply as_strings_inv in Ec. subst command.
      change (map Some (exe :: rest)) with (Some exe :: map Some rest).
      rewrite run_unfold. cbn zeta.
      destruct (launch_error _ _ _ _) as [e'|] eqn:El.
      * intros [= <- _]. by eapply launch_error_civil.
      * destruct (_ && _)%bool; by intros [= <- _].
    + unfold run, subprocess_run. rewrite Ec. destruct (VERBOSE w); by intros [= <- _].
Qed.

Lemma tame_run (command : list (option string)) (kw : RunKwargs) :
  tame (run w command kw).
Proof. intros st. pose proof (yields_run command kw st) as H. by destruct (run _ _ _ _).1. Qed.

Lemma yields_friendly_error_messages {A} (Q : A → Prop) (body : M A) :
  yields Q body → yields Q (friendly_error_messages w body).
Proof.
  intros Hb. unfold friendly_error_messages. apply yields_try_except; [done|].
  intros e He st. by destruct e.
Qed.

Lemma tame_get_remote_origin_url : tame (get_remote_origin_url w).
Proof. pose proof tame_run. unfold get_remote_origin_url. tame. Qed.

Lemma tame_clone_repo (git_repo_url : string) : tame (clone_repo w git_repo_url).
Proof.
  pose proof tame_run. pose proof tame_os_path_isdir. pose proof tame_os_mkdir.
  pose proof tame_get_remote_origin_url.
  unfold clone_repo, bare_repo_dir_exists, sys_exit. tame.
Qed.

Lemma tame_init_repo : tame (init_repo w).
Proof.
  pose proof tame_run. pose proof tame_os_path_isdir.
  unfold init_repo, bare_repo_dir_exists. tame.
Qed.

Lemma tame_do_not_show_untracked_files : tame (do_not_show_untracked_files w).
Proof. pose proof tame_run. unfold do_not_show_untracked_files. tame. Qed.

Lemma tame_run_git : tame (run_git w).
Proof.
  pose proof tame_os_path_isdir.
  unfold run_git, bare_repo_dir_exists, is_within_home_dir, sys_exit.
  apply tame_bind; [tame|intros dir_exists].
  apply tame_bind; [tame|intros _].
  apply tame_bind; [tame|intros within].
  apply tame_bind; [tame|intros _].
  apply (yields_bind (λ cp, cp_returncode cp = 0)).
  - apply yields_friendly_error_messages, yields_try_except.
    + intros st. pose proof (yields_run
        (app [GIT_EXECUTABLE w; Some ("--git-dir=" ++ BARE_REPO_DIR w);
              Some ("--work-tree=" ++ PyStr.fmt (HOME w))]
             (map Some (tail (argv w)))) no_kwargs st) as Hrun.
      destruct (run _ _ _ _).1; [|done]. by apply Hrun.
    + intros e He st. by destruct e.
  - intros cp Hcp. apply tame_raise. done.
Qed.

Lemma tame_dispatch (c : option Command) : tame (dispatch w c).
Proof.
  pose proof tame_run. pose proof tame_os_path_isdir.
  pose proof tame_shutil_rmtree. pose proof tame_clone_repo.
  pose proof tame_init_repo. pose proof tame_do_not_show_untracked_files.
  pose proof tame_run_git.
  destruct c as [[]|]; simpl.
  - unfold run_init, friendly_error_messages, sys_exit. tame.
  - unfold run_clone, checkout_repo, friendly_error_messages, sys_exit.
    destruct (argv w) as [|a0 [|a1 [|a2 [|a3 rest]]]]; tame.
  - unfold run_help. tame.
  - unfold run_version. tame.
  - unfold run_untrack. tame.
  - done.
  - unfold run_help. tame.
Qed.

Lemma tame_main : tame (main w).
Proof.
  pose proof tame_dispatch. unfold main, sys_exit.
  apply tame_bind; [tame|intros _].
  apply tame_bind; [|intros _; apply tame_dispatch].
  apply tame_for_each. intros x. apply tame_print.
Qed.

(** X8: whatever the invocation and whatever the executable does, the
    script ends with status 0 or with status 1; no other status of the
    executable ever becomes the status of the script. *)
Theorem exit_status_zero_or_one (st : State) :
  exit_status (main w st).1 = 0 ∨ exit_status (main w st).1 = 1.
Proof.
  pose proof (tame_main st) as H.
  destruct (main w st).1 as [[]|e]; [by left|].
  destruct e as [| | | | | | | | |[n|msg]| | |]; simpl in *; auto.
  left. by rewrite H.
Qed.

End Tame.

(** ** What the script does to the outside *)

Section Emits.

Context (P : Event → Prop).

Lemma emits_ret {A} (a : A) : emits P (mret a).
Proof. intros st. exists []. by rewrite app_nil_r. Qed.

Lemma emits_raise {A} (e : exn) : emits P (@raise A e).
Proof. intros st. exists []. by rewrite app_nil_r. Qed.

Lemma emits_bind {A B} (m : M A) (k : A → M B) :
  emits P m → (∀ a, emits P (k a)) → emits P (m ≫= k).
Proof.
  intros Hm Hk st. rewrite bind_unfold.
  destruct (Hm st) as (evs1 & E1 & F1). destruct (m st) as [[a|e] st1]; simpl in E1.
  - destruct (Hk a st1) as (evs2 & E2 & F2). exists (evs1 ++ evs2)%list.
    rewrite E2, E1, <- app_assoc. split; [done|]. by apply Forall_app.
  - by exists evs1.
Qed.

Lemma emits_try_except {A} (m : M A) (h : exn → M A) :
  emits P m → (∀ e, emits P (h e)) → emits P (try_except m h).
Proof.
  intros Hm Hh st. unfold try_except.
  destruct (Hm st) as (evs1 & E1 & F1). destruct (m st) as [[a|e] st1]; simpl in E1.
  - by exists evs1.
  - destruct (Hh e st1) as (evs2 & E2 & F2). exists (evs1 ++ evs2)%list.
    rewrite E2, E1, <- app_assoc. split; [done|]. by apply Forall_app.
Qed.

Lemma emits_when (b : bool) (m : M unit) : emits P m → emits P (when b m).
Proof. destruct b; [done|]. intros _. apply emits_ret. Qed.

Lemma emits_log (ev : Event) : P ev → emits P (log ev).
Proof. intros Hev st. exists [ev]. split; [done|]. by constructor. Qed.

Lemma emits_print (line : string) : emits P (print line).
Proof. intros st. exists []. simpl. by rewrite app_nil_r. Qed.

Lemma emits_get_fs : emits P get_fs.
Proof. intros st. exists []. simpl. by rewrite app_nil_r. Qed.

Lemma emits_put_fs (fs : FS.t) : emits P (put_fs fs).
Proof. intros st. exists []. simpl. by rewrite app_nil_r. Qed.

Lemma emits_for_each_print {A} (f : A → string) (xs : list A) :
  emits P (for_each xs (λ x, print (f x))).
Proof.
  intros st. rewrite for_each_print. exists []. simpl. by rewrite app_nil_r.
Qed.

End Emits.

(** Proves that a function of the script makes only calls of one kind,
    from the same for what it is made of. *)
Ltac emits :=
  repeat first
    [ match goal with
      | H : _ |- emits _ _ => apply H
      end
    | apply emits_bind; [|intros ?]
    | apply emits_try_except; [|intros ?]
    | apply emits_when
    | apply emits_ret
    | apply emits_raise
    | apply emits_log; solve [auto]
    | apply emits_print
    | apply emits_get_fs
    | apply emits_put_fs
    | match goal with
      | |- emits _ (match ?x with _ => _ end) => destruct x
      end ].

Section Calls.

Context (w : World) (P : Event → Prop).

Hypothesis Hisdir : ∀ path, P (EvIsdir path).
Hypothesis Hmkdir : ∀ path, P (EvMkdir path).
Hypothesis Hrmtree : ∀ path, P (EvRmtree path).
Hypothesis Hrun : ∀ args cwd, P (EvRun args cwd).

Lemma emits_os_path_isdir (path : string) : emits P (os_path_isdir w path).
Proof using Hisdir. unfold os_path_isdir. emits. Qed.

Lemma emits_os_mkdir (path : string) : emits P (os_mkdir w path).
Proof using Hmkdir. unfold os_mkdir. emits. Qed.

Lemma emits_shutil_rmtree (path : string) : emits P (shutil_rmtree w path).
Proof using Hrmtree. unfold shutil_rmtree. emits. Qed.

Lemma emits_run (command : list (option string)) (kw : RunKwargs) :
  emits P (run w command kw).
Proof using Hrun. unfold run, subprocess_run. emits. Qed.

Lemma emits_run_help : emits P (run_help).
Proof using Type. unfold run_help. emits. Qed.

Lemma emits_run_version : emits P (run_version w).
Proof using Hrun. pose proof emits_run. unfold run_version. emits. Qed.

Lemma emits_run_untrack : emits P (run_untrack w).
Proof using Hrmtree. pose proof emits_shutil_rmtree. unfold run_untrack. emits. Qed.

Lemma emits_do_not_show_untracked_files : emits P (do_not_show_untracked_files w).
Proof using Hrun. pose proof emits_run. unfold do_not_show_untracked_files. emits. Qed.

Lemma emits_run_init : emits P (run_init w).
Proof using Hisdir Hrun.
  pose proof emits_run. pose proof emits_os_path_isdir.
  unfold run_init, init_repo, do_not_show_untracked_files, bare_repo_dir_exists,
    friendly_error_messages, sys_exit.
  emits.
Qed.

Lemma emits_run_clone : emits P (run_clone w).
Proof using Hisdir Hmkdir Hrun.
  pose proof emits_run. pose proof emits_os_path_isdir. pose proof emits_os_mkdir.
  unfold run_clone, clone_repo, get_remote_origin_url, do_not_show_untracked_files,
    checkout_repo, bare_repo_dir_exists, friendly_error_messages, sys_exit.
  destruct (argv w) as [|a0 [|a1 [|a2 [|a3 rest]]]]; emits.
Qed.

Lemma emits_run_git : emits P (run_git w).
Proof using Hisdir Hrun.
  pose proof emits_run. pose proof emits_os_path_isdir.
  unfold run_git, bare_repo_dir_exists, is_within_home_dir, friendly_error_messages,
    sys_exit.
  emits.
Qed.

End Calls.

Section Reach.

Context (w : World).

Lemma performed_main (P : Event → Prop) (st : State) :
  emits P (dispatch w (command (parse_command w))) →
  Forall P (performed (main w) st).
Proof.
  intros Hd. unfold performed.
  assert (emits P (main w)) as Hm.
  { unfold main, sys_exit. apply emits_bind; [emits|intros _].
    apply emits_bind; [apply emits_for_each_print|by intros _]. }
  destruct (Hm st) as (evs & -> & F). by rewrite drop_app_length.
Qed.

(** X9: the script removes a directory tree only under Untrack and makes
    a directory only under Clone, and it never calls the executable under
    Help or Untrack: in a run of any other command no such call is made,
    whatever the state and whatever the executable answers. *)
Theorem calls_by_command (st : State) :
  (command (parse_command w) ≠ Some UNTRACK →
   Forall (λ ev, is_rmtree ev = false) (performed (main w) st))
  ∧ (command (parse_command w) ≠ Some CLONE →
     Forall (λ ev, is_mkdir ev = false) (performed (main w) st))
  ∧ (command (parse_command w) ∈ [None; Some HELP; Some UNTRACK] →
     Forall (λ ev, is_run ev = false) (performed (main w) st)).
Proof.
  split; [|split]; intros Hc; apply performed_main.
  - destruct (command (parse_command w)) as [[]|]; simpl; try done.
    + by apply emits_run_init.
    + by apply emits_run_clone.
    + apply emits_run_help.
    + by apply emits_run_version.
    + by apply emits_run_git.
    + apply emits_run_help.
  - destruct (command (parse_command w)) as [[]|]; simpl; try done.
    + by apply emits_run_init.
    + apply emits_run_help.
    + by apply emits_run_version.
    + by apply emits_run_untrack.
    + by apply emits_run_git.
    + apply emits_run_help.
  - rewrite !elem_of_cons, elem_of_nil in Hc.
    destruct Hc as [-> | [-> | [-> | []]]]; simpl.
    + apply emits_run_help.
    + apply emits_run_help.
    + by apply emits_run_untrack.
Qed.

End Reach.

(** ** Sequences of steps *)

Section Steps.

Context (w : World).

Lemma announced_fs (args : list string) (st : State) :
  st_fs (announced w args st) = st_fs st.
Proof. unfold announced. by destruct (VERBOSE w). Qed.

Lemma announced_events (args : list string) (st : State) :
  st_events (announced w args st) = st_events st.
Proof. unfold announced. by destruct (VERBOSE w). Qed.

Lemma announced_stdout (args : list string) (st : State) :
  st_stdout (announced w args st) = (st_stdout st ++ announcements w [args])%list.
Proof.
  unfold announced, announcements. destruct (VERBOSE w); simpl; [done|].
  by rewrite app_nil_r.
Qed.

Lemma announcements_app (l1 l2 : list (list string)) :
  announcements w (l1 ++ l2) = (announcements w l1 ++ announcements w l2)%list.
Proof. unfold announcements. destruct (VERBOSE w); [apply map_app|done]. Qed.

(** A step of the script that calls [run] on a command whose program is
    [g], launched or not. *)
Lemma run_step (g : string) (rest : list string) (kw : RunKwargs) (st : State) :
  ∃ st',
    (run w (Some g :: map Some rest) kw st).2 = st'
    ∧ st_events st' = (st_events st ++ [EvRun (g :: rest) (kw_cwd kw)])%list
    ∧ st_stdout st' = (st_stdout st ++ announcements w [g :: rest])%list.
Proof.
  eexists. split; [done|]. rewrite run_unfold. cbn zeta.
  destruct (launch_error _ _ _ _); [|destruct (_ && _)%bool]; simpl;
    by rewrite announced_events, announced_stdout.
Qed.

Lemma run_untrack_unfold (st : State) :
  run_untrack w st
  = match FS.rmtree (st_fs st) (resolve w (BARE_REPO_DIR w)) with
    | inl e => (inr e, with_events [EvRmtree (BARE_REPO_DIR w)] st)
    | inr fs' =>
        (inl tt,
         with_lines ["Stopped tracking homegit repo at " ++ BARE_REPO_DIR w]
           (with_fs fs' (with_events [EvRmtree (BARE_REPO_DIR w)] st)))
    end.
Proof.
  unfold run_untrack, shutil_rmtree. mrun.
  change (st_fs (with_events [EvRmtree (BARE_REPO_DIR w)] st)) with (st_fs st).
  by destruct (FS.rmtree (st_fs st) _).
Qed.

Lemma run_git_absent (st : State) :
  FS.isdir (st_fs st) (resolve w (BARE_REPO_DIR w)) = false →
  run_git w st
  = (inr (SystemExit (ExitMsg ("Unknown repo: " ++ HOMEGIT_REPO w
                               ++ " (" ++ BARE_REPO_DIR w ++ ")"))),
     with_events [EvIsdir (BARE_REPO_DIR w)] st).
Proof.
  intros Hd. unfold run_git. by rewrite bind_unfold, bare_repo_dir_exists_unfold, Hd.
Qed.

End Steps.

(** X10: Untrack on a bare-repo directory that exists returns with
    status 0, and a pass-through invocation made next, in the same
    environment and working directory, finds no repository: it ends with
    the "Unknown repo" message and status 1 and runs nothing. *)
Theorem untrack_then_passthrough (w1 w2 : World) (h : string) (st : State) :
  environ w1 = environ w2 →
  getcwd w1 = getcwd w2 →
  HOME w1 = Some h →
  command (parse_command w1) = Some UNTRACK →
  command (parse_command w2) = Some GIT →
  FS.isdir (st_fs st) (resolve w1 (BARE_REPO_DIR w1)) = true →
  resolve w1 (BARE_REPO_DIR w1) ≠ [] →
  (main w1 st).1 = inl tt
  ∧ FS.isdir (st_fs (main w1 st).2) (resolve w1 (BARE_REPO_DIR w1)) = false
  ∧ (main w2 (main w1 st).2).1
    = inr (SystemExit (ExitMsg ("Unknown repo: " ++ HOMEGIT_REPO w1
                                ++ " (" ++ BARE_REPO_DIR w1 ++ ")")))
  ∧ performed (main w2) (main w1 st).2 = [EvIsdir (BARE_REPO_DIR w1)].
Proof.
  intros Henv Hcwd Hh Hc1 Hc2 Hd Hkey.
  assert (HOME w2 = Some h) as Hh2 by (unfold HOME in *; by rewrite <- Henv).
  assert (HOMEGIT_REPO w2 = HOMEGIT_REPO w1) as Hrepo
    by (unfold HOMEGIT_REPO; by rewrite Henv).
  assert (BARE_REPO_DIR w2 = BARE_REPO_DIR w1) as Hbare
    by (unfold BARE_REPO_DIR, HOMEGIT_DIR, HOMEGIT_REPO, HOME; by rewrite Henv).
  assert (resolve w2 (BARE_REPO_DIR w2) = resolve w1 (BARE_REPO_DIR w1)) as Hres
    by (unfold resolve; by rewrite Hbare, Hcwd).
  destruct (rmtree_present _ _ Hd) as (fs' & Hrm).
  assert (FS.isdir fs' (resolve w1 (BARE_REPO_DIR w1)) = false) as Hgone.
  { unfold FS.isdir, FS.node_at.
    destruct (resolve w1 (BARE_REPO_DIR w1)) as [|c key] eqn:Ek; [done|].
    by rewrite (rmtree_clears _ _ _ (c :: key) Hrm). }
  rewrite (main_dispatch w1 h st Hh), Hc1. unfold dispatch at 1 2 3 4.
  rewrite run_untrack_unfold.
  change (st_fs (warned w1 st)) with (st_fs st). rewrite Hrm. simpl fst. simpl snd.
  split; [done|]. split; [done|].
  unfold performed.
  rewrite (main_dispatch w2 h _ Hh2), Hc2. unfold dispatch.
  rewrite run_git_absent by (by rewrite Hres).
  rewrite Hrepo, Hbare. split; [done|]. simpl. by rewrite drop_app_length.
Qed.

(** ** Init and Clone from start to end *)

(** Brings the fields of a state built by the steps of the script to the
    fields of the state it started from. *)
Ltac fields :=
  repeat (cbn [st_fs st_stdout st_events with_fs with_lines with_events warned fst snd];
          rewrite ?announced_fs, ?announced_events, ?announced_stdout).

Section Ends.

Context (w : World).

Lemma launch_error_cases (fs : FS.t) (cwd : option string) (g : string) :
  launch_error w fs cwd g = None
  ∨ launch_error w fs cwd g = Some FileNotFoundError
  ∨ launch_error w fs cwd g = Some NotADirectoryError.
Proof.
  unfold launch_error.
  repeat match goal with
         | |- context [match ?x with _ => _ end] => destruct x
         end; auto.
Qed.

Lemma init_repo_unfold (g : string) (st : State) :
  GIT_EXECUTABLE w = Some g →
  FS.isdir (st_fs st) (resolve w (BARE_REPO_DIR w)) = false →
  init_repo w st =
  let st1 := with_events [EvRun (init_command w g) (Some (HOMEGIT_DIR w))]
               (announced w (init_command w g)
                  (with_events [EvIsdir (BARE_REPO_DIR w)] st)) in
  match launch_error w (st_fs st) (Some (HOMEGIT_DIR w)) g with
  | Some e => (inr e, st1)
  | None =>
      let r := tool w (init_command w g) (HOMEGIT_DIR w) (st_fs st) in
      (if tr_returncode r =? 0 then inl tt else inr InitFailure, with_fs (tr_fs r) st1)
  end.
Proof.
  intros Hg Hd. unfold init_repo.
  rewrite bind_unfold, bare_repo_dir_exists_unfold, Hd. cbn beta iota.
  rewrite when_false, ret_bind, Hg, bind_unfold. unfold try_except.
  rewrite (run_unfold w g ["init"; "--bare"; BARE_REPO_DIR w]).
  cbn zeta. simpl kw_cwd. simpl kw_check. simpl default.
  change (st_fs (with_events ?e ?s)) with (st_fs s).
  fold (init_command w g).
  destruct (launch_error_cases (st_fs st) (Some (HOMEGIT_DIR w)) g)
    as [-> | [-> | ->]]; try reflexivity.
  destruct (tr_returncode _ =? 0) eqn:Hrc; simpl; rewrite ?Hrc; reflexivity.
Qed.

Lemma do_not_show_untracked_files_unfold (g : string) (st : State) :
  GIT_EXECUTABLE w = Some g →
  do_not_show_untracked_files w st =
  let st1 := with_events [EvRun (config_command w g) (Some (HOMEGIT_DIR w))]
               (announced w (config_command w g) st) in
  match launch_error w (st_fs st) (Some (HOMEGIT_DIR w)) g with
  | Some e => (inr e, st1)
  | None =>
      let r := tool w (config_command w g) (HOMEGIT_DIR w) (st_fs st) in
      (if tr_returncode r =? 0 then inl tt else inr SettingShowUntrackedFilesFailure,
       with_fs (tr_fs r) st1)
  end.
Proof.
  intros Hg. unfold do_not_show_untracked_files.
  rewrite Hg, bind_unfold. unfold try_except.
  rewrite (run_unfold w g (tail (config_command w g))).
  cbn zeta. simpl kw_cwd. simpl kw_check. simpl default.
  change (g :: tail (config_command w g)) with (config_command w g).
  destruct (launch_error_cases (st_fs st) (Some (HOMEGIT_DIR w)) g)
    as [-> | [-> | ->]]; try reflexivity.
  destruct (tr_returncode _ =? 0) eqn:Hrc; simpl; rewrite ?Hrc; reflexivity.
Qed.

Lemma checkout_repo_unfold (g : string) (st : State) :
  GIT_EXECUTABLE w = Some g →
  checkout_repo w st =
  let st1 := with_events [EvRun (checkout_command w g) None]
               (announced w (checkout_command w g) st) in
  match launch_error w (st_fs st) None g with
  | Some e => (inr e, st1)
  | None =>
      let r := tool w (checkout_command w g) (getcwd w) (st_fs st) in
      (inl (tr_returncode r =? 0), with_fs (tr_fs r) st1)
  end.
Proof.
  intros Hg. unfold checkout_repo.
  rewrite Hg, bind_unfold.
  rewrite (run_unfold w g (tail (checkout_command w g))).
  cbn zeta. simpl kw_cwd. simpl kw_check. simpl default. simpl andb.
  change (g :: tail (checkout_command w g)) with (checkout_command w g).
  by destruct (launch_error _ _ _ _).
Qed.

(** X11: Init on a free bare-repo directory under a storage root that
    exists, with an executable that creates the repository (status 0) and
    leaves the storage root in place: the script calls the executable
    twice from the storage root, first to create the bare repository and
    then to set [status.showUntrackedFiles], and nothing else.  When the
    second call ends with status 0 the script prints the "Initialized"
    line last and returns with status 0; when it does not, the script
    ends with the message about the setting and status 1, the line is not
    printed, and what the first call created is left as it is. *)
Theorem init_end_to_end (h g : string) (st : State) :
  HOME w = Some h →
  GIT_EXECUTABLE w = Some g →
  command (parse_command w) = Some INIT →
  FS.isdir (st_fs st) (resolve w (BARE_REPO_DIR w)) = false →
  FS.isdir (st_fs st) (resolve w (HOMEGIT_DIR w)) = true →
  can_exec w g = true →
  let r1 := tool w (init_command w g) (HOMEGIT_DIR w) (st_fs st) in
  tr_returncode r1 = 0 →
  FS.isdir (tr_fs r1) (resolve w (HOMEGIT_DIR w)) = true →
  let r2 := tool w (config_command w g) (HOMEGIT_DIR w) (tr_fs r1) in
  performed (main w) st
  = [EvIsdir (BARE_REPO_DIR w);
     EvRun (init_command w g) (Some (HOMEGIT_DIR w));
     EvRun (config_command w g) (Some (HOMEGIT_DIR w))]
  ∧ st_fs (main w st).2 = tr_fs r2
  ∧ (tr_returncode r2 = 0 →
     (main w st).1 = inl tt
     ∧ printed (main w) st
       = (warnings w ++ announcements w [init_command w g; config_command w g]
          ++ [initialized_line w])%list)
  ∧ (tr_returncode r2 ≠ 0 →
     (main w st).1
     = inr (SystemExit (ExitMsg ("Error setting status.showUntrackedFiles for "
                                 ++ HOMEGIT_REPO w)))
     ∧ printed (main w) st
       = (warnings w ++ announcements w [init_command w g; config_command w g])%list).
Proof.
  intros Hh Hg Hc Hd Hroot Hx r1 Hrc1 Hroot1 r2.
  unfold performed, printed.
  rewrite (main_dispatch w h st Hh), Hc. unfold dispatch, run_init.
  unfold friendly_error_messages, try_except.
  rewrite bind_unfold, (init_repo_unfold g _ Hg) by done. cbn zeta.
  change (st_fs (warned w st)) with (st_fs st).
  rewrite (launch_error_there w _ _ g Hroot), Hx. fold r1.
  replace (tr_returncode r1 =? 0) with true by (symmetry; by apply Z.eqb_eq).
  cbn beta iota.
  rewrite bind_unfold, (do_not_show_untracked_files_unfold g _ Hg). cbn zeta.
  change (st_fs (with_fs (tr_fs r1) ?s)) with (tr_fs r1).
  rewrite (launch_error_there w _ _ g Hroot1), Hx. fold r2.
  change (announcements w [init_command w g; config_command w g])
    with (announcements w ([init_command w g] ++ [config_command w g])).
  rewrite announcements_app. unfold warnings.
  unfold initialized_line.
  destruct (tr_returncode r2 =? 0) eqn:Hrc2; cbn beta iota;
    rewrite ?print_unfold; unfold sys_exit, raise; fields;
    rewrite <- ?app_assoc, ?drop_app_length.
  - apply Z.eqb_eq in Hrc2. done.
  - apply Z.eqb_neq in Hrc2. done.
Qed.

Lemma os_mkdir_unfold (path : string) (st : State) :
  os_mkdir w path st
  = match FS.mkdir (st_fs st) (resolve w path) with
    | inl e => (inr e, with_events [EvMkdir path] st)
    | inr fs' => (inl tt, with_fs fs' (with_events [EvMkdir path] st))
    end.
Proof.
  unfold os_mkdir. mrun.
  change (st_fs (with_events [EvMkdir path] st)) with (st_fs st).
  by destruct (FS.mkdir (st_fs st) _).
Qed.

Lemma get_remote_origin_url_unfold (g : string) (st : State) :
  GIT_EXECUTABLE w = Some g →
  get_remote_origin_url w st =
  let st1 := with_events [EvRun (origin_command w g) None]
               (announced w (origin_command w g) st) in
  if can_exec w g
  then
    let r := tool w (origin_command w g) (getcwd w) (st_fs st) in
    (inl (if tr_returncode r =? 0 then PyBytes (tr_stdout r) else PyNone),
     with_fs (tr_fs r) st1)
  else (inr FileNotFoundError, st1).
Proof.
  intros Hg. unfold get_remote_origin_url.
  rewrite Hg, bind_unfold.
  rewrite (run_unfold w g (tail (origin_command w g))).
  cbn zeta. simpl kw_cwd. simpl kw_check. simpl default. simpl andb.
  change (g :: tail (origin_command w g)) with (origin_command w g).
  rewrite launch_error_here. by destruct (can_exec w g).
Qed.

Lemma clone_is_CLONE (prog url : string) :
  argv w = [prog; "clone"; url] → command (parse_command w) = Some CLONE.
Proof. intros Hargv. by rewrite parse_command_lookup, Hargv. Qed.

(** X12: Clone on a bare-repo directory that exists never touches it:
    whatever the URL asked for and whatever origin the repository has,
    the script makes no directory, clones nothing and ends with status 1.
    When a path of the executable is known, it only asks the executable
    for the origin and ends with the "Existing repo" message, or with the
    message about the executable when that cannot be launched; when none
    is known, it calls nothing and ends with a [TypeError] that nobody
    catches. *)
Theorem clone_never_overwrites (prog url h : string) (st : State) :
  HOME w = Some h →
  argv w = [prog; "clone"; url] →
  FS.isdir (st_fs st) (resolve w (BARE_REPO_DIR w)) = true →
  exit_status (main w st).1 = 1
  ∧ Forall (λ ev, is_mkdir ev = false) (performed (main w) st)
  ∧ match GIT_EXECUTABLE w with
    | Some g =>
        performed (main w) st
        = [EvIsdir (BARE_REPO_DIR w); EvRun (origin_command w g) None]
        ∧ (can_exec w g = true →
           (main w st).1
           = inr (SystemExit (ExitMsg ("Existing repo: " ++ HOMEGIT_REPO w
                                       ++ " (" ++ BARE_REPO_DIR w ++ ")")))
           ∧ st_fs (main w st).2
             = tr_fs (tool w (origin_command w g) (getcwd w) (st_fs st)))
        ∧ (can_exec w g = false →
           (main w st).1
           = inr (SystemExit
                    (ExitMsg ("Error executing git: No such file or directory: " ++ g)))
           ∧ st_fs (main w st).2 = st_fs st)
    | None =>
        (main w st).1 = inr TypeError
        ∧ performed (main w) st = [EvIsdir (BARE_REPO_DIR w)]
        ∧ st_fs (main w st).2 = st_fs st
    end.
Proof.
  intros Hh Hargv Hd. unfold performed.
  rewrite (main_dispatch w h st Hh), (clone_is_CLONE prog url Hargv).
  unfold dispatch, run_clone. rewrite Hargv.
  unfold friendly_error_messages, try_except, clone_repo.
  rewrite !bind_unfold, bare_repo_dir_exists_unfold.
  change (st_fs (warned w st)) with (st_fs st). rewrite Hd. cbn beta iota.
  destruct (GIT_EXECUTABLE w) as [g|] eqn:Hg.
  - rewrite !bind_unfold, (get_remote_origin_url_unfold g _ Hg), ?Hg. cbn zeta.
    destruct (can_exec w g); cbn beta iota.
    + destruct (tr_returncode _ =? 0); simpl py_eq; simpl negb;
        rewrite !when_true, raise_bind; unfold sys_exit, raise; cbn beta iota; fields;
        rewrite <- ?app_assoc, ?drop_app_length;
        (split; [done|]); (split; [cbn [app]; by repeat constructor|]); done.
    + unfold sys_exit, raise; fields. rewrite <- ?app_assoc, ?drop_app_length.
      split; [done|]. split; [cbn [app]; by repeat constructor|]. done.
  - unfold get_remote_origin_url. rewrite Hg, !bind_unfold, run_no_program.
    cbn beta iota. unfold raise. fields. rewrite ?drop_app_length.
    split; [done|]. split; [cbn [app]; by repeat constructor|]. done.
Qed.

(** X13: Clone where neither the storage root nor the directory above it
    exists fails in [os.mkdir] with a [FileNotFoundError], and the error
    translation reports it as a failure to execute git, with the path of
    the executable, although the executable was never called. *)
Theorem clone_blames_git_for_mkdir (prog url h : string) (st : State) :
  HOME w = Some h →
  argv w = [prog; "clone"; url] →
  FS.isdir (st_fs st) (resolve w (BARE_REPO_DIR w)) = false →
  FS.node_at (st_fs st) (resolve w (HOMEGIT_DIR w)) = None →
  FS.node_at (st_fs st) (removelast (resolve w (HOMEGIT_DIR w))) = None →
  main w st
  = (inr (SystemExit (ExitMsg ("Error executing git: No such file or directory: "
                               ++ PyStr.fmt (GIT_EXECUTABLE w)))),
     with_events [EvIsdir (BARE_REPO_DIR w); EvMkdir (HOMEGIT_DIR w)] (warned w st))
  ∧ Forall (λ ev, is_run ev = false) (performed (main w) st).
Proof.
  intros Hh Hargv Hd Hroot Hup.
  assert (main w st
    = (inr (SystemExit (ExitMsg ("Error executing git: No such file or directory: "
                                 ++ PyStr.fmt (GIT_EXECUTABLE w)))),
       with_events [EvIsdir (BARE_REPO_DIR w); EvMkdir (HOMEGIT_DIR w)] (warned w st)))
    as Hmain.
  { rewrite (main_dispatch w h st Hh), (clone_is_CLONE prog url Hargv).
    unfold dispatch, run_clone. rewrite Hargv.
    unfold friendly_error_messages, try_except, clone_repo.
    rewrite !bind_unfold, bare_repo_dir_exists_unfold.
    change (st_fs (warned w st)) with (st_fs st). rewrite Hd. cbn beta iota.
    rewrite ret_bind, !when_false, !ret_bind.
    unfold try_except. rewrite !bind_unfold, os_mkdir_unfold.
    change (st_fs (with_events ?e (warned w st))) with (st_fs st).
    unfold FS.mkdir. rewrite Hroot, Hup. cbn beta iota.
    unfold sys_exit, raise, with_events; simpl. by rewrite <- app_assoc. }
  split; [done|]. unfold performed. rewrite Hmain. simpl.
  rewrite drop_app_length. by repeat constructor.
Qed.

(** X14: Clone on a free bare-repo directory, where the storage root
    exists or can be made and the bare-repo directory can be made, with an
    executable that clones (status 0), leaves the storage root in place
    and sets [status.showUntrackedFiles] (status 0): the script makes the
    two directories, calls the executable three times (clone, config,
    checkout) and returns with status 0 after the "Cloned" line, whatever
    the status of the checkout; a checkout that ends with another status
    than 0 only adds the warning line before it. *)
Theorem clone_end_to_end (prog url h g : string) (st : State) (fs1 fs2 : FS.t) :
  HOME w = Some h →
  GIT_EXECUTABLE w = Some g →
  argv w = [prog; "clone"; url] →
  FS.isdir (st_fs st) (resolve w (BARE_REPO_DIR w)) = false →
  (FS.mkdir (st_fs st) (resolve w (HOMEGIT_DIR w)) = inr fs1
   ∨ FS.mkdir (st_fs st) (resolve w (HOMEGIT_DIR w)) = inl FileExistsError
     ∧ fs1 = st_fs st) →
  FS.mkdir fs1 (resolve w (BARE_REPO_DIR w)) = inr fs2 →
  can_exec w g = true →
  let r1 := tool w (clone_command w g url) (getcwd w) fs2 in
  tr_returncode r1 = 0 →
  FS.isdir (tr_fs r1) (resolve w (HOMEGIT_DIR w)) = true →
  let r2 := tool w (config_command w g) (HOMEGIT_DIR w) (tr_fs r1) in
  tr_returncode r2 = 0 →
  let r3 := tool w (checkout_command w g) (getcwd w) (tr_fs r2) in
  (main w st).1 = inl tt
  ∧ st_fs (main w st).2 = tr_fs r3
  ∧ performed (main w) st
    = [EvIsdir (BARE_REPO_DIR w); EvMkdir (HOMEGIT_DIR w); EvMkdir (BARE_REPO_DIR w);
       EvRun (clone_command w g url) None;
       EvRun (config_command w g) (Some (HOMEGIT_DIR w));
       EvRun (checkout_command w g) None]
  ∧ printed (main w) st
    = (warnings w
       ++ announcements w [clone_command w g url; config_command w g; checkout_command w g]
       ++ (if tr_returncode r3 =? 0 then [] else [checkout_warning w])
       ++ [cloned_line w])%list.
Proof.
  intros Hh Hg Hargv Hd Hmk1 Hmk2 Hx r1 Hrc1 Hroot1 r2 Hrc2 r3.
  assert (∃ fin,
    main w st = (inl tt, fin)
    ∧ st_fs fin = tr_fs r3
    ∧ st_events fin
      = (st_events st
         ++ [EvIsdir (BARE_REPO_DIR w); EvMkdir (HOMEGIT_DIR w);
             EvMkdir (BARE_REPO_DIR w);
             EvRun (clone_command w g url) None;
             EvRun (config_command w g) (Some (HOMEGIT_DIR w));
             EvRun (checkout_command w g) None])%list
    ∧ st_stdout fin
      = (st_stdout st ++ warnings w
         ++ announcements w
              [clone_command w g url; config_command w g; checkout_command w g]
         ++ (if tr_returncode r3 =? 0 then [] else [checkout_warning w])
         ++ [cloned_line w])%list) as (fin & Hmain & Hfs & Hev & Hout).
  { rewrite (main_dispatch w h st Hh), (clone_is_CLONE prog url Hargv).
    unfold dispatch, run_clone. rewrite Hargv.
    unfold friendly_error_messages, try_except at 1, clone_repo.
    rewrite !bind_unfold, bare_repo_dir_exists_unfold.
    change (st_fs (warned w st)) with (st_fs st). rewrite Hd. cbn beta iota.
    rewrite ret_bind, !when_false, !ret_bind.
    unfold try_except at 2. rewrite !bind_unfold, os_mkdir_unfold.
    change (st_fs (with_events ?e (warned w st))) with (st_fs st).
    set (s1 := with_events [EvMkdir (HOMEGIT_DIR w)]
                 (with_events [EvIsdir (BARE_REPO_DIR w)] (warned w st))).
    assert (st_events s1
            = (st_events st ++ [EvIsdir (BARE_REPO_DIR w); EvMkdir (HOMEGIT_DIR w)])%list)
      as Hev1 by (unfold s1; simpl; by rewrite <- app_assoc).
    assert (st_stdout s1 = (st_stdout st ++ warnings w)%list) as Hout1 by done.
    assert (∃ s2, match
                    match FS.mkdir (st_fs st) (resolve w (HOMEGIT_DIR w)) with
                    | inl e => (@inr unit _ e, s1)
                    | inr fs' => (inl tt, with_fs fs' s1)
                    end
                  with
                  | (inl a, st') => (inl a, st')
                  | (inr e, st') =>
                      match e with
                      | FileExistsError => mret tt
                      | _ => raise e
                      end st'
                  end = (inl tt, s2)
                  ∧ st_fs s2 = fs1 ∧ st_events s2 = st_events s1
                  ∧ st_stdout s2 = st_stdout s1) as (s2 & -> & Hfs2 & Hev2 & Hout2).
    { destruct Hmk1 as [-> | [-> ->]]; eexists; (split; [reflexivity|done]). }
    cbn beta iota. rewrite bind_unfold, os_mkdir_unfold, Hfs2, Hmk2. cbn beta iota.
    rewrite Hg, bind_unfold. unfold try_except at 1.
    rewrite (run_unfold w g (tail (clone_command w g url))).
    change (g :: tail (clone_command w g url)) with (clone_command w g url).
    cbn zeta. simpl kw_cwd. simpl kw_check. simpl default.
    rewrite launch_error_here, Hx. fields. fold r1.
    replace (tr_returncode r1 =? 0) with true by (symmetry; by apply Z.eqb_eq).
    simpl andb. cbn beta iota. simpl cp_returncode.
    replace (tr_returncode r1 =? 0) with true by (symmetry; by apply Z.eqb_eq).
    simpl negb. rewrite when_false. unfold mret at 1, M_ret, ret. cbn beta iota.
    rewrite bind_unfold, (do_not_show_untracked_files_unfold g _ Hg). cbn zeta. fields.
    rewrite (launch_error_there w _ _ g Hroot1), Hx. fold r2.
    replace (tr_returncode r2 =? 0) with true by (symmetry; by apply Z.eqb_eq).
    cbn beta iota.
    rewrite bind_unfold, (checkout_repo_unfold g _ Hg). cbn zeta. fields.
    rewrite launch_error_here, Hx. fold r3. cbn beta iota.
    change (announcements w
              [clone_command w g url; config_command w g; checkout_command w g])
      with (announcements w ([clone_command w g url] ++ [config_command w g]
                             ++ [checkout_command w g])).
    rewrite !announcements_app.
    destruct (tr_returncode r3 =? 0); simpl negb;
      rewrite ?when_true, ?when_false, ?ret_bind, ?bind_unfold, ?print_unfold;
      cbn beta iota; rewrite ?print_unfold;
      (eexists; split; [reflexivity|]); fields; rewrite Hev2, Hev1, Hout2, Hout1;
      rewrite <- ?app_assoc; done. }
  unfold performed, printed. rewrite Hmain. simpl fst. simpl snd.
  rewrite Hev, Hout, !drop_app_length. done.
Qed.

(** X17: Init never makes the storage root, so on a home directory
    without one it cannot succeed: the script ends with status 1, the file
    system as it was.  When a path of the executable is known, the call
    of the executable, which is to start in the storage root, fails at the
    launch, and the script ends with the message about the executable;
    when none is known, it calls nothing and ends with a [TypeError] that
    nobody catches. *)
Theorem init_without_storage_root (h : string) (st : State) :
  HOME w = Some h →
  command (parse_command w) = Some INIT →
  FS.isdir (st_fs st) (resolve w (BARE_REPO_DIR w)) = false →
  FS.node_at (st_fs st) (resolve w (HOMEGIT_DIR w)) = None →
  exit_status (main w st).1 = 1
  ∧ st_fs (main w st).2 = st_fs st
  ∧ match GIT_EXECUTABLE w with
    | Some g =>
        (main w st).1
        = inr (SystemExit
                 (ExitMsg ("Error executing git: No such file or directory: " ++ g)))
        ∧ performed (main w) st
          = [EvIsdir (BARE_REPO_DIR w); EvRun (init_command w g) (Some (HOMEGIT_DIR w))]
    | None =>
        (main w st).1 = inr TypeError
        ∧ performed (main w) st = [EvIsdir (BARE_REPO_DIR w)]
    end.
Proof.
  intros Hh Hc Hd Hroot. unfold performed.
  rewrite (main_dispatch w h st Hh), Hc. unfold dispatch, run_init.
  unfold friendly_error_messages, try_except.
  destruct (GIT_EXECUTABLE w) as [g|] eqn:Hg.
  - rewrite bind_unfold, (init_repo_unfold g _ Hg) by done. cbn zeta.
    change (st_fs (warned w st)) with (st_fs st).
    unfold launch_error. rewrite Hroot, ?Hg. cbn beta iota.
    unfold sys_exit, raise. fields. rewrite <- ?app_assoc, ?drop_app_length. done.
  - rewrite bind_unfold, (init_repo_no_program w _ Hg) by done.
    cbn beta iota. unfold raise. fields.
    rewrite <- ?app_assoc, ?drop_app_length. done.
Qed.

End Ends.

(** ** Verbose runs *)

Lemma agree_ret {A} (a : A) : agree (mret a) (mret a).
Proof. by intros st st0 H. Qed.

Lemma agree_raise {A} (e : exn) : agree (@raise A e) (raise e).
Proof. by intros st st0 H. Qed.

Lemma agree_bind {A B} (m m0 : M A) (k k0 : A → M B) :
  agree m m0 → (∀ a, agree (k a) (k0 a)) → agree (m ≫= k) (m0 ≫= k0).
Proof.
  intros Hm Hk st st0 H. rewrite !bind_unfold.
  destruct (Hm st st0 H) as [E1 E2].
  destruct (m st) as [[a|e] st1], (m0 st0) as [[a0|e0] st2]; simpl in *;
    simplify_eq; [by apply Hk|done].
Qed.

Lemma agree_try_except {A} (m m0 : M A) (h h0 : exn → M A) :
  agree m m0 → (∀ e, agree (h e) (h0 e)) → agree (try_except m h) (try_except m0 h0).
Proof.
  intros Hm Hh st st0 H. unfold try_except.
  destruct (Hm st st0 H) as [E1 E2].
  destruct (m st) as [[a|e] st1], (m0 st0) as [[a0|e0] st2]; simpl in *;
    simplify_eq; [done|by apply Hh].
Qed.

Lemma agree_when (b : bool) (m m0 : M unit) :
  agree m m0 → agree (when b m) (when b m0).
Proof. destruct b; [done|]. intros _. apply agree_ret. Qed.

Lemma agree_print (line : string) : agree (print line) (print line).
Proof.
  intros st st0 (Hfs & Hev & Hout). split; [done|]. split; [done|]. split; [done|].
  simpl. unfold unannounced in *. by rewrite !filter_app, Hout.
Qed.

Lemma agree_log (ev : Event) : agree (log ev) (log ev).
Proof.
  intros st st0 (Hfs & Hev & Hout). split; [done|]. split; [done|]. split; [|done].
  simpl. by rewrite Hev.
Qed.

Lemma agree_get_fs : agree get_fs get_fs.
Proof. intros st st0 (Hfs & Hev & Hout). split; [|done]. simpl. by rewrite Hfs. Qed.

Lemma agree_put_fs (fs : FS.t) : agree (put_fs fs) (put_fs fs).
Proof. by intros st st0 (Hfs & Hev & Hout). Qed.

(** A line of the verbose [run] in front changes nothing. *)
Lemma agree_announced {A} (line : string) (m m0 : M A) :
  is_running line = true → agree m m0 → agree (print line ≫= λ _, m) m0.
Proof.
  intros Hl Hm st st0 (Hfs & Hev & Hout). rewrite bind_unfold, print_unfold.
  apply Hm. split; [done|]. split; [done|]. simpl. unfold unannounced in *.
  rewrite filter_app, Hout. simpl. rewrite filter_cons_False by (by rewrite Hl).
  by rewrite filter_nil, app_nil_r.
Qed.

Lemma agree_for_each_print {A} (f : A → string) (xs : list A) :
  agree (for_each xs (λ x, print (f x))) (for_each xs (λ x, print (f x))).
Proof.
  induction xs as [|x xs IH]; simpl; [apply agree_ret|].
  apply agree_bind; [apply agree_print|by intros _].
Qed.

(** Proves that two functions of the script agree, from the same for
    what they are made of. *)
Ltac agree :=
  repeat first
    [ match goal with
      | H : _ |- agree _ _ => apply H
      end
    | apply agree_bind; [|intros ?]
    | apply agree_try_except; [|intros ?]
    | apply agree_when
    | apply agree_ret
    | apply agree_raise
    | apply agree_print
    | apply agree_log
    | apply agree_get_fs
    | apply agree_put_fs
    | match goal with
      | |- agree (match ?x with _ => _ end) _ => destruct x
      end ].

Lemma appends_weaken {A} (P Q : string → Prop) (m : M A) :
  (∀ line, P line → Q line) → appends P m → appends Q m.
Proof.
  intros HPQ Hm st. destruct (Hm st) as (out & E & F). exists out. split; [done|].
  by eapply Forall_impl.
Qed.

(** What the script has printed stays, and what it prints comes after. *)
Lemma stdout_grows (w : World) (st : State) :
  st_stdout (main w st).2 = (st_stdout st ++ printed (main w) st)%list.
Proof.
  assert (appends (λ _, True) (main w)) as Hm.
  { unfold main, sys_exit. apply appends_bind.
    - apply appends_when, appends_raise.
    - intros _. apply appends_bind.
      + intros s. rewrite for_each_print. eexists. split; [done|].
        by apply Forall_true.
      + intros _. eapply appends_weaken; [|apply quiet_dispatch]. done. }
  unfold printed. destruct (Hm st) as (out & -> & _). by rewrite drop_app_length.
Qed.

Section Hushed.

Context (w : World).

Lemma VERBOSE_hushed : VERBOSE (hushed w) = false.
Proof. unfold VERBOSE, hushed; simpl. by rewrite lookup_delete_eq. Qed.

Lemma HOME_hushed : HOME (hushed w) = HOME w.
Proof. unfold HOME, hushed; simpl. by rewrite lookup_delete_ne. Qed.

Lemma GIT_EXECUTABLE_hushed : GIT_EXECUTABLE (hushed w) = GIT_EXECUTABLE w.
Proof. unfold GIT_EXECUTABLE, hushed; simpl. by rewrite lookup_delete_ne. Qed.

Lemma HOMEGIT_DIR_hushed : HOMEGIT_DIR (hushed w) = HOMEGIT_DIR w.
Proof.
  unfold HOMEGIT_DIR. rewrite HOME_hushed. unfold hushed; simpl.
  by rewrite lookup_delete_ne.
Qed.

Lemma HOMEGIT_REPO_hushed : HOMEGIT_REPO (hushed w) = HOMEGIT_REPO w.
Proof. unfold HOMEGIT_REPO, hushed; simpl. by rewrite lookup_delete_ne. Qed.

Lemma BARE_REPO_DIR_hushed : BARE_REPO_DIR (hushed w) = BARE_REPO_DIR w.
Proof. unfold BARE_REPO_DIR. by rewrite HOMEGIT_DIR_hushed, HOMEGIT_REPO_hushed. Qed.

Lemma agree_os_path_isdir (path : string) :
  agree (os_path_isdir w path) (os_path_isdir (hushed w) path).
Proof.
  change (os_path_isdir (hushed w) path) with (os_path_isdir w path).
  unfold os_path_isdir. agree.
Qed.

Lemma agree_os_mkdir (path : string) :
  agree (os_mkdir w path) (os_mkdir (hushed w) path).
Proof.
  change (os_mkdir (hushed w) path) with (os_mkdir w path).
  unfold os_mkdir. agree.
Qed.

Lemma agree_shutil_rmtree (path : string) :
  agree (shutil_rmtree w path) (shutil_rmtree (hushed w) path).
Proof.
  change (shutil_rmtree (hushed w) path) with (shutil_rmtree w path).
  unfold shutil_rmtree. agree.
Qed.

Lemma agree_subprocess_run (command : list (option string)) (kw : RunKwargs) :
  agree (subprocess_run w command kw) (subprocess_run (hushed w) command kw).
Proof.
  change (subprocess_run (hushed w) command kw) with (subprocess_run w command kw).
  unfold subprocess_run. agree.
Qed.

Lemma agree_run (command : list (option string)) (kw : RunKwargs) :
  agree (run w command kw) (run (hushed w) command kw).
Proof.
  pose proof agree_subprocess_run as Hsub.
  unfold run. rewrite VERBOSE_hushed, when_false, ret_bind.
  destruct (VERBOSE w); [|rewrite when_false, ret_bind; apply Hsub].
  rewrite when_true. destruct (as_strings command) as [args|] eqn:E.
  - apply agree_announced; [done|apply Hsub].
  - rewrite raise_bind. unfold subprocess_run. rewrite E. apply agree_raise.
Qed.

(** Rewrites the configuration of the hushed world to the one of the
    world itself. *)
Ltac unhush :=
  rewrite ?HOME_hushed, ?GIT_EXECUTABLE_hushed, ?HOMEGIT_DIR_hushed,
    ?HOMEGIT_REPO_hushed, ?BARE_REPO_DIR_hushed.

Lemma agree_is_within_home_dir :
  agree (is_within_home_dir w) (is_within_home_dir (hushed w)).
Proof. unfold is_within_home_dir. unhush. simpl getcwd. agree. Qed.

Lemma agree_get_remote_origin_url :
  agree (get_remote_origin_url w) (get_remote_origin_url (hushed w)).
Proof. pose proof agree_run. unfold get_remote_origin_url. unhush. agree. Qed.

Lemma agree_bare_repo_dir_exists :
  agree (bare_repo_dir_exists w) (bare_repo_dir_exists (hushed w)).
Proof. unfold bare_repo_dir_exists. unhush. apply agree_os_path_isdir. Qed.

Lemma agree_friendly_error_messages {A} (body body0 : M A) :
  agree body body0 →
  agree (friendly_error_messages w body) (friendly_error_messages (hushed w) body0).
Proof. intros Hb. unfold friendly_error_messages, sys_exit. unhush. agree. Qed.

Lemma agree_checkout_repo : agree (checkout_repo w) (checkout_repo (hushed w)).
Proof. pose proof agree_run. unfold checkout_repo. unhush. agree. Qed.

Lemma agree_clone_repo (git_repo_url : string) :
  agree (clone_repo w git_repo_url) (clone_repo (hushed w) git_repo_url).
Proof.
  pose proof agree_run. pose proof agree_os_mkdir.
  pose proof agree_bare_repo_dir_exists. pose proof agree_get_remote_origin_url.
  unfold clone_repo, sys_exit. unhush. agree.
Qed.

Lemma agree_init_repo : agree (init_repo w) (init_repo (hushed w)).
Proof.
  pose proof agree_run. pose proof agree_bare_repo_dir_exists.
  unfold init_repo. unhush. agree.
Qed.

Lemma agree_do_not_show_untracked_files :
  agree (do_not_show_untracked_files w) (do_not_show_untracked_files (hushed w)).
Proof. pose proof agree_run. unfold do_not_show_untracked_files. unhush. agree. Qed.

Lemma agree_run_version : agree (run_version w) (run_version (hushed w)).
Proof. pose proof agree_run. unfold run_version. unhush. agree. Qed.

Lemma agree_run_init : agree (run_init w) (run_init (hushed w)).
Proof.
  pose proof agree_init_repo. pose proof agree_do_not_show_untracked_files.
  unfold run_init. apply agree_friendly_error_messages. unhush. agree.
Qed.

Lemma agree_run_clone : agree (run_clone w) (run_clone (hushed w)).
Proof.
  pose proof agree_clone_repo. pose proof agree_do_not_show_untracked_files.
  pose proof agree_checkout_repo.
  unfold run_clone. simpl argv.
  destruct (argv w) as [|a0 [|a1 [|a2 [|a3 rest]]]]; try apply agree_raise.
  apply agree_friendly_error_messages. unhush. agree.
Qed.

Lemma agree_run_untrack : agree (run_untrack w) (run_untrack (hushed w)).
Proof. pose proof agree_shutil_rmtree. unfold run_untrack. unhush. agree. Qed.

Lemma agree_run_git : agree (run_git w) (run_git (hushed w)).
Proof.
  pose proof agree_run. pose proof agree_bare_repo_dir_exists.
  pose proof agree_is_within_home_dir.
  unfold run_git, sys_exit. unhush. simpl argv. simpl getcwd.
  apply agree_bind; [agree|intros dir_exists].
  apply agree_bind; [agree|intros _].
  apply agree_bind; [agree|intros within].
  apply agree_bind; [agree|intros _].
  apply agree_bind; [|intros cp; apply agree_raise].
  apply agree_friendly_error_messages. agree.
Qed.

Lemma agree_main : agree (main w) (main (hushed w)).
Proof.
  unfold main, sys_exit. unhush.
  change (parse_command (hushed w)) with (parse_command w).
  apply agree_bind; [agree|intros _].
  apply agree_bind; [apply agree_for_each_print|intros _].
  destruct (command (parse_command w)) as [[]|]; simpl.
  - apply agree_run_init.
  - apply agree_run_clone.
  - unfold run_help. agree.
  - apply agree_run_version.
  - apply agree_run_untrack.
  - apply agree_run_git.
  - unfold run_help. agree.
Qed.

(** X15: verbose logging only adds lines.  With [VERBOSE] taken out of
    the environment the script ends in the same way, leaves the same file
    system and makes the same calls in the same order, and it prints the
    same lines, apart from the lines that start with "Running: ". *)
Theorem verbose_only_adds_lines (st : State) :
  (main w st).1 = (main (hushed w) st).1
  ∧ st_fs (main w st).2 = st_fs (main (hushed w) st).2
  ∧ performed (main w) st = performed (main (hushed w)) st
  ∧ unannounced (printed (main w) st) = unannounced (printed (main (hushed w)) st).
Proof.
  destruct (agree_main st st) as (Hr & Hfs & Hev & Hout); [done|].
  split; [done|]. split; [done|]. split; [unfold performed; by rewrite Hev|].
  rewrite (stdout_grows w st), (stdout_grows (hushed w) st) in Hout.
  unfold unannounced in *. rewrite !filter_app in Hout.
  by apply app_inv_head in Hout.
Qed.

End Hushed.

(** ** The line of a verbose [run] *)

Lemma split_no_sep (c : ascii) (s : string) :
  PyStr.contains_char c s = false → PyStr.split c s = [s].
Proof.
  induction s as [|d s IH]; simpl; [done|].
  destruct (Ascii.eqb c d); [done|]. intros H. by rewrite (IH H).
Qed.

Lemma split_app_sep (c : ascii) (a rest : string) :
  PyStr.contains_char c a = false →
  PyStr.split c (a ++ String c rest) = a :: PyStr.split c rest.
Proof.
  induction a as [|d a IH]; intros H.
  - change (PyStr.split c (String c rest) = EmptyString :: PyStr.split c rest).
    simpl. by rewrite Ascii.eqb_refl.
  - change (PyStr.split c (String d (a ++ String c rest))
            = String d a :: PyStr.split c rest).
    simpl in *. destruct (Ascii.eqb c d); [done|]. by rewrite (IH H).
Qed.

(** X16: for a command none of whose arguments holds a space, the
    escaping of the verbose [run] changes nothing, and the line it prints
    after "Running: " splits at the spaces into the arguments again. *)
Theorem running_line_splits_back (args : list string) :
  args ≠ [] →
  Forall (λ arg, PyStr.contains_char PyStr.space arg = false) args →
  map naively_escaped args = args
  ∧ running_line args = "Running: " ++ PyStr.join " " args
  ∧ PyStr.split PyStr.space (PyStr.join " " (map naively_escaped args)) = args.
Proof.
  intros Hne Hall.
  assert (map naively_escaped args = args) as Hmap.
  { clear Hne. induction Hall as [|arg args Harg _ IH]; simpl; [done|].
    unfold naively_escaped at 1. by rewrite Harg, IH. }
  split; [done|]. split; [unfold running_line; by rewrite Hmap|]. rewrite Hmap.
  clear Hmap. induction Hall as [|arg args Harg Hall IH]; [done|].
  destruct args as [|arg' args]; [by apply split_no_sep|].
  change (PyStr.join " " (arg :: arg' :: args))
    with (arg ++ String PyStr.space (PyStr.join " " (arg' :: args))).
  rewrite split_app_sep by done. f_equal. by apply IH.
Qed.

(** ** One invocation after another *)

Section Twice.

Context (w : World).

Lemma run_init_present (st : State) :
  FS.isdir (st_fs st) (resolve w (BARE_REPO_DIR w)) = true →
  run_init w st
  = (inr (SystemExit (ExitMsg ("Existing repo: " ++ HOMEGIT_REPO w
                               ++ " (" ++ BARE_REPO_DIR w ++ ")"))),
     with_events [EvIsdir (BARE_REPO_DIR w)] st).
Proof.
  intros Hd. unfold run_init, friendly_error_messages, try_except, init_repo.
  by rewrite !bind_unfold, bare_repo_dir_exists_unfold, Hd.
Qed.

Lemma run_clone_present (prog url g : string) (st : State) :
  GIT_EXECUTABLE w = Some g →
  argv w = [prog; "clone"; url] →
  FS.isdir (st_fs st) (resolve w (BARE_REPO_DIR w)) = true →
  can_exec w g = true →
  (run_clone w st).1
  = inr (SystemExit (ExitMsg ("Existing repo: " ++ HOMEGIT_REPO w
                              ++ " (" ++ BARE_REPO_DIR w ++ ")"))).
Proof.
  intros Hg Hargv Hd Hx. unfold run_clone. rewrite Hargv.
  unfold friendly_error_messages, try_except, clone_repo.
  rewrite !bind_unfold, bare_repo_dir_exists_unfold, Hd. cbn beta iota.
  rewrite !bind_unfold, (get_remote_origin_url_unfold w g _ Hg), Hx. cbn zeta.
  cbn beta iota.
  destruct (tr_returncode _ =? 0); simpl py_eq; simpl negb;
    by rewrite !when_true, raise_bind.
Qed.

(** X20: Init that succeeded cannot be repeated: when the two calls of
    the executable end with status 0 and leave the bare-repo directory in
    place, the same invocation made again ends with the "Existing repo"
    message and status 1, and it neither calls the executable nor changes
    the file system. *)
Theorem init_twice (h g : string) (st : State) :
  HOME w = Some h →
  GIT_EXECUTABLE w = Some g →
  command (parse_command w) = Some INIT →
  FS.isdir (st_fs st) (resolve w (BARE_REPO_DIR w)) = false →
  FS.isdir (st_fs st) (resolve w (HOMEGIT_DIR w)) = true →
  can_exec w g = true →
  let r1 := tool w (init_command w g) (HOMEGIT_DIR w) (st_fs st) in
  tr_returncode r1 = 0 →
  FS.isdir (tr_fs r1) (resolve w (HOMEGIT_DIR w)) = true →
  let r2 := tool w (config_command w g) (HOMEGIT_DIR w) (tr_fs r1) in
  tr_returncode r2 = 0 →
  FS.isdir (tr_fs r2) (resolve w (BARE_REPO_DIR w)) = true →
  (main w st).1 = inl tt
  ∧ (main w (main w st).2).1
    = inr (SystemExit (ExitMsg ("Existing repo: " ++ HOMEGIT_REPO w
                                ++ " (" ++ BARE_REPO_DIR w ++ ")")))
  ∧ st_fs (main w (main w st).2).2 = st_fs (main w st).2
  ∧ performed (main w) (main w st).2 = [EvIsdir (BARE_REPO_DIR w)].
Proof.
  intros Hh Hg Hc Hd Hroot Hx r1 Hrc1 Hroot1 r2 Hrc2 Hmade.
  assert (∃ fin, main w st = (inl tt, fin) ∧ st_fs fin = tr_fs r2)
    as (fin & Hmain & Hfs).
  { rewrite (main_dispatch w h st Hh), Hc. unfold dispatch, run_init.
    unfold friendly_error_messages, try_except.
    rewrite bind_unfold, (init_repo_unfold w g _ Hg) by done. cbn zeta.
    change (st_fs (warned w st)) with (st_fs st).
    rewrite (launch_error_there w _ _ g Hroot), Hx. fold r1.
    replace (tr_returncode r1 =? 0) with true by (symmetry; by apply Z.eqb_eq).
    cbn beta iota.
    rewrite bind_unfold, (do_not_show_untracked_files_unfold w g _ Hg). cbn zeta.
    change (st_fs (with_fs (tr_fs r1) ?s)) with (tr_fs r1).
    rewrite (launch_error_there w _ _ g Hroot1), Hx. fold r2.
    replace (tr_returncode r2 =? 0) with true by (symmetry; by apply Z.eqb_eq).
    cbn beta iota. rewrite print_unfold. eexists. split; [reflexivity|done]. }
  unfold performed. rewrite Hmain. simpl fst. simpl snd.
  rewrite (main_dispatch w h fin Hh), Hc. unfold dispatch.
  rewrite run_init_present by (change (st_fs (warned w fin)) with (st_fs fin);
                               by rewrite Hfs).
  split; [done|]. split; [done|]. split; [done|]. simpl. by rewrite drop_app_length.
Qed.

(** X21: Clone that fails in the executable is not undone: when the
    clone call ends with another status than 0 and the directory the
    script made for it is still there, the script ends with the "Error
    cloning repo" message and status 1, and the same invocation made
    again does not clone: it ends with the "Existing repo" message. *)
Theorem failed_clone_blocks_retry (prog url h g : string) (st : State) (fs1 fs2 : FS.t) :
  HOME w = Some h →
  GIT_EXECUTABLE w = Some g →
  argv w = [prog; "clone"; url] →
  FS.isdir (st_fs st) (resolve w (BARE_REPO_DIR w)) = false →
  (FS.mkdir (st_fs st) (resolve w (HOMEGIT_DIR w)) = inr fs1
   ∨ FS.mkdir (st_fs st) (resolve w (HOMEGIT_DIR w)) = inl FileExistsError
     ∧ fs1 = st_fs st) →
  FS.mkdir fs1 (resolve w (BARE_REPO_DIR w)) = inr fs2 →
  can_exec w g = true →
  let r1 := tool w (clone_command w g url) (getcwd w) fs2 in
  tr_returncode r1 ≠ 0 →
  FS.isdir (tr_fs r1) (resolve w (BARE_REPO_DIR w)) = true →
  (main w st).1
  = inr (SystemExit (ExitMsg ("Error cloning repo (" ++ HOMEGIT_REPO w ++ ")")))
  ∧ st_fs (main w st).2 = tr_fs r1
  ∧ (main w (main w st).2).1
    = inr (SystemExit (ExitMsg ("Existing repo: " ++ HOMEGIT_REPO w
                                ++ " (" ++ BARE_REPO_DIR w ++ ")"))).
Proof.
  intros Hh Hg Hargv Hd Hmk1 Hmk2 Hx r1 Hrc1 Hleft.
  assert (∃ fin,
    main w st
    = (inr (SystemExit (ExitMsg ("Error cloning repo (" ++ HOMEGIT_REPO w ++ ")"))), fin)
    ∧ st_fs fin = tr_fs r1) as (fin & Hmain & Hfs).
  { rewrite (main_dispatch w h st Hh), (clone_is_CLONE w prog url Hargv).
    unfold dispatch, run_clone. rewrite Hargv.
    unfold friendly_error_messages, try_except at 1, clone_repo.
    rewrite !bind_unfold, bare_repo_dir_exists_unfold.
    change (st_fs (warned w st)) with (st_fs st). rewrite Hd. cbn beta iota.
    rewrite ret_bind, !when_false, !ret_bind.
    unfold try_except at 2. rewrite !bind_unfold, os_mkdir_unfold.
    change (st_fs (with_events ?e (warned w st))) with (st_fs st).
    set (s1 := with_events [EvMkdir (HOMEGIT_DIR w)]
                 (with_events [EvIsdir (BARE_REPO_DIR w)] (warned w st))).
    assert (∃ s2, match
                    match FS.mkdir (st_fs st) (resolve w (HOMEGIT_DIR w)) with
                    | inl e => (@inr unit _ e, s1)
                    | inr fs' => (inl tt, with_fs fs' s1)
                    end
                  with
                  | (inl a, st') => (inl a, st')
                  | (inr e, st') =>
                      match e with
                      | FileExistsError => mret tt
                      | _ => raise e
                      end st'
                  end = (inl tt, s2)
                  ∧ st_fs s2 = fs1) as (s2 & -> & Hfs2).
    { destruct Hmk1 as [-> | [-> ->]]; eexists; (split; [reflexivity|done]). }
    cbn beta iota. rewrite bind_unfold, os_mkdir_unfold, Hfs2, Hmk2. cbn beta iota.
    rewrite Hg, bind_unfold. unfold try_except at 1.
    rewrite (run_unfold w g (tail (clone_command w g url))).
    change (g :: tail (clone_command w g url)) with (clone_command w g url).
    cbn zeta. simpl kw_cwd. simpl kw_check. simpl default.
    rewrite launch_error_here, Hx. fields. fold r1.
    replace (tr_returncode r1 =? 0) with false by (symmetry; by apply Z.eqb_neq).
    simpl andb. cbn beta iota. unfold sys_exit, raise.
    eexists. split; [reflexivity|done]. }
  rewrite Hmain. simpl fst. simpl snd. split; [done|]. split; [done|].
  rewrite (main_dispatch w h fin Hh), (clone_is_CLONE w prog url Hargv).
  unfold dispatch. apply (run_clone_present prog url g); try done.
  change (st_fs (warned w fin)) with (st_fs fin). by rewrite Hfs.
Qed.

End Twice.

(** ** The further properties on concrete runs *)

Lemma mkdir_free (fs : FS.t) (p : list string) :
  FS.node_at fs p = None →
  FS.node_at fs (removelast p) = Some FS.Dir →
  FS.mkdir fs p = inr (<[p := FS.Dir]> fs).
Proof. unfold FS.mkdir. by intros -> ->. Qed.

(** X1 on [homegit --help] without [HOME]. *)
Lemma main_without_home_witness :
  exit_status (main Scenario.homeless (Scenario.start Scenario.tracked)).1 = 1
  ∧ printed (main Scenario.homeless) (Scenario.start Scenario.tracked) = [].
Proof.
  destruct (main_without_home Scenario.homeless (Scenario.start Scenario.tracked))
    as (_ & H1 & H2 & _); [vm_compute; reflexivity|].
  split; [exact H1|exact H2].
Defined.


(** X3 on [homegit --help --bare]. *)
Lemma help_prints_usage_witness :
  (main Scenario.help_flag (Scenario.start Scenario.tracked)).1 = inl tt
  ∧ performed (main Scenario.help_flag) (Scenario.start Scenario.tracked) = [].
Proof.
  destruct (help_prints_usage Scenario.help_flag "/home/bob"
              (Scenario.start Scenario.tracked)) as (H1 & _ & H2).
  - vm_compute. reflexivity.
  - right. exists "--help". split; [reflexivity|]. apply list_elem_of_In. simpl. auto.
  - split; [by rewrite H1|exact H2].
Defined.

(** X4 on [homegit -v] where git ends with status 1. *)
Lemma version_ignores_status_witness :
  tr_returncode (tool Scenario.version_flag [Scenario.git; "--version"] "/home/bob"
                   Scenario.tracked) = 1
  ∧ exit_status (main Scenario.version_flag (Scenario.start Scenario.tracked)).1 = 0.
Proof.
  split; [vm_compute; reflexivity|].
  destruct (version_ignores_status Scenario.version_flag "/home/bob"
              (Scenario.start Scenario.tracked)) as (_ & H).
  - vm_compute. reflexivity.
  - exists "-v". split; [reflexivity|]. apply list_elem_of_In. simpl. auto.
  - destruct (H Scenario.git) as (_ & H2); [vm_compute; reflexivity|].
    destruct H2 as (_ & H3); [vm_compute; reflexivity|]. exact H3.
Defined.

(** X5 on the home directory [/home/bob] seen from [/home/bobby]. *)
Lemma is_within_home_dir_prefix_test_witness :
  (is_within_home_dir Scenario.status_elsewhere (Scenario.start Scenario.tracked)).1
  = inl (PyStr.startswith "/home/bob" "/home/bobby").
Proof.
  rewrite (is_within_home_dir_prefix_test Scenario.status_elsewhere "/home/bob"
             (Scenario.start Scenario.tracked)); [|vm_compute; reflexivity].
  vm_compute. reflexivity.
Defined.

(** X7 on the call of [init_repo] with an executable that ends with 128. *)
Lemma run_checks_unless_told_witness :
  (run Scenario.init_fails
     [Some Scenario.git; Some "init"; Some "--bare"; Some "/home/bob/.homegit/default"]
     {| kw_cwd := Some "/home/bob/.homegit"; kw_check := None;
        kw_capture_output := false |}
     (Scenario.start Scenario.untracked)).1
  = inr (CalledProcessError 128).
Proof.
  destruct (run_checks_unless_told Scenario.init_fails) as [H _].
  pose proof (H Scenario.git ["init"; "--bare"; "/home/bob/.homegit/default"]
                {| kw_cwd := Some "/home/bob/.homegit"; kw_check := None;
                   kw_capture_output := false |}
                (Scenario.start Scenario.untracked)) as H'.
  cbv zeta in H'.
  destruct H' as (_ & H' & _); [vm_compute; reflexivity|].
  change (map Some ["init"; "--bare"; "/home/bob/.homegit/default"])
    with [Some "init"; Some "--bare"; Some "/home/bob/.homegit/default"] in H'.
  rewrite H'; [vm_compute; reflexivity|discriminate|vm_compute; discriminate].
Defined.

(** X10 on [homegit untrack] followed by [homegit status]. *)
Lemma untrack_then_passthrough_witness :
  (main Scenario.untrack (Scenario.start Scenario.tracked)).1 = inl tt
  ∧ performed (main Scenario.status_untracked)
      (main Scenario.untrack (Scenario.start Scenario.tracked)).2
    = [EvIsdir "/home/bob/.homegit/default"].
Proof.
  destruct (untrack_then_passthrough Scenario.untrack Scenario.status_untracked
              "/home/bob" (Scenario.start Scenario.tracked))
    as (H1 & _ & _ & H2);
    [vm_compute; reflexivity..|vm_compute; discriminate|].
  split; [exact H1|exact H2].
Defined.

(** X11 on [homegit init] under an empty storage root. *)
Lemma init_end_to_end_witness :
  (main Scenario.init_lower (Scenario.start Scenario.untracked)).1 = inl tt
  ∧ printed (main Scenario.init_lower) (Scenario.start Scenario.untracked)
    = ["Initialized default repo"].
Proof.
  destruct (init_end_to_end Scenario.init_lower "/home/bob" Scenario.git
              (Scenario.start Scenario.untracked))
    as (_ & _ & H & _); [vm_compute; reflexivity..|].
  destruct H as (H1 & H2); [vm_compute; reflexivity|].
  split; [exact H1|]. rewrite H2. vm_compute. reflexivity.
Defined.

(** X12 on a second [homegit clone] of the same URL. *)
Lemma clone_never_overwrites_witness :
  exit_status (main Scenario.clone_again (Scenario.start Scenario.tracked)).1 = 1
  ∧ performed (main Scenario.clone_again) (Scenario.start Scenario.tracked)
    = [EvIsdir "/home/bob/.homegit/default";
       EvRun (origin_command Scenario.clone_again Scenario.git) None].
Proof.
  pose proof (clone_never_overwrites Scenario.clone_again "homegit" Scenario.url
                "/home/bob" (Scenario.start Scenario.tracked)) as H.
  assert (GIT_EXECUTABLE Scenario.clone_again = Some Scenario.git) as Hg
    by (vm_compute; reflexivity).
  rewrite Hg in H.
  destruct H as (H1 & _ & H2 & _); [vm_compute; reflexivity..|].
  split; [exact H1|exact H2].
Defined.

(** X13 on [homegit clone] where not even the home directory exists. *)
Lemma clone_blames_git_for_mkdir_witness :
  (main Scenario.clone_again (Scenario.start Scenario.nothing)).1
  = inr (SystemExit (ExitMsg "Error executing git: No such file or directory: /usr/bin/git")).
Proof.
  destruct (clone_blames_git_for_mkdir Scenario.clone_again "homegit" Scenario.url
              "/home/bob" (Scenario.start Scenario.nothing))
    as (H & _); [vm_compute; reflexivity..|].
  by rewrite H.
Defined.

(** X14 on [homegit clone] on a home directory without a storage root,
    where the checkout ends with status 1. *)
Lemma clone_end_to_end_witness :
  (main Scenario.clone_fresh (Scenario.start Scenario.bare_home)).1 = inl tt
  ∧ printed (main Scenario.clone_fresh) (Scenario.start Scenario.bare_home)
    = ["Warning: could not checkout latest changes (default)"; "Cloned default repo"].
Proof.
  destruct (clone_end_to_end Scenario.clone_fresh "homegit" Scenario.url
              "/home/bob" Scenario.git (Scenario.start Scenario.bare_home)
              (<[ ["home"; "bob"; ".homegit"] := FS.Dir ]> Scenario.bare_home)
              (<[ ["home"; "bob"; ".homegit"; "default"] := FS.Dir ]>
                 (<[ ["home"; "bob"; ".homegit"] := FS.Dir ]> Scenario.bare_home)))
    as (H1 & _ & _ & H2).
  - vm_compute. reflexivity.
  - vm_compute. reflexivity.
  - vm_compute. reflexivity.
  - vm_compute. reflexivity.
  - left. apply (mkdir_free Scenario.bare_home ["home"; "bob"; ".homegit"]);
      vm_compute; reflexivity.
  - apply (mkdir_free (<[ ["home"; "bob"; ".homegit"] := FS.Dir ]> Scenario.bare_home)
             ["home"; "bob"; ".homegit"; "default"]); vm_compute; reflexivity.
  - vm_compute. reflexivity.
  - vm_compute. reflexivity.
  - vm_compute. reflexivity.
  - vm_compute. reflexivity.
  - split; [exact H1|]. rewrite H2. vm_compute. reflexivity.
Defined.

(** X16 on the command of [run_version]. *)
Lemma running_line_splits_back_witness :
  PyStr.split PyStr.space
    (PyStr.join " " (map naively_escaped [Scenario.git; "--version"]))
  = [Scenario.git; "--version"].
Proof.
  destruct (running_line_splits_back [Scenario.git; "--version"]) as (_ & _ & H).
  - discriminate.
  - repeat constructor.
  - exact H.
Defined.

(** X17 on [homegit init] on a home directory without a storage root. *)
Lemma init_without_storage_root_witness :
  exit_status (main Scenario.init_lower (Scenario.start Scenario.bare_home)).1 = 1
  ∧ st_fs (main Scenario.init_lower (Scenario.start Scenario.bare_home)).2
    = Scenario.bare_home.
Proof.
  destruct (init_without_storage_root Scenario.init_lower "/home/bob"
              (Scenario.start Scenario.bare_home))
    as (H1 & H2 & _); [vm_compute; reflexivity..|].
  split; [exact H1|exact H2].
Defined.

(** X18 on [homegit status] where git ends with status 3. *)
Lemma passthrough_exit_status_witness :
  exit_status (main Scenario.status_fails (Scenario.start Scenario.tracked)).1 = 1.
Proof.
  rewrite (passthrough_exit_status Scenario.status_fails "/home/bob" Scenario.git
             (Scenario.start Scenario.tracked)); vm_compute; reflexivity.
Defined.

(** X19 on [homegit status] from [/srv]. *)
Lemma passthrough_location_guard_witness :
  (main Scenario.status_away (Scenario.start Scenario.tracked)).1
  = inr (SystemExit
           (ExitMsg "The current working directory must be run within the /home/bob directory (/srv)")).
Proof.
  rewrite (passthrough_location_guard Scenario.status_away "/home/bob"
             (Scenario.start Scenario.tracked)); [reflexivity|vm_compute; reflexivity..].
Defined.

(** X20 on [homegit init] made twice. *)
Lemma init_twice_witness :
  (main Scenario.init_real (Scenario.start Scenario.untracked)).1 = inl tt
  ∧ (main Scenario.init_real
       (main Scenario.init_real (Scenario.start Scenario.untracked)).2).1
    = inr (SystemExit (ExitMsg "Existing repo: default (/home/bob/.homegit/default)")).
Proof.
  destruct (init_twice Scenario.init_real "/home/bob" Scenario.git
              (Scenario.start Scenario.untracked))
    as (H1 & H2 & _); [vm_compute; reflexivity..|].
  split; [exact H1|exact H2].
Defined.

(** X21 on [homegit clone] that fails, made twice. *)
Lemma failed_clone_blocks_retry_witness :
  (main Scenario.clone_fails (Scenario.start Scenario.untracked)).1
  = inr (SystemExit (ExitMsg "Error cloning repo (default)"))
  ∧ (main Scenario.clone_fails
       (main Scenario.clone_fails (Scenario.start Scenario.untracked)).2).1
    = inr (SystemExit (ExitMsg "Existing repo: default (/home/bob/.homegit/default)")).
Proof.
  destruct (failed_clone_blocks_retry Scenario.clone_fails "homegit" Scenario.url
              "/home/bob" Scenario.git (Scenario.start Scenario.untracked)
              Scenario.untracked
              (<[ ["home"; "bob"; ".homegit"; "default"] := FS.Dir ]> Scenario.untracked))
    as (H1 & _ & H2).
  - vm_compute. reflexivity.
  - vm_compute. reflexivity.
  - vm_compute. reflexivity.
  - vm_compute. reflexivity.
  - right. split; [vm_compute; reflexivity|reflexivity].
  - apply (mkdir_free Scenario.untracked ["home"; "bob"; ".homegit"; "default"]);
      vm_compute; reflexivity.
  - vm_compute. reflexivity.
  - vm_compute. discriminate.
  - vm_compute. reflexivity.
  - split; [exact H1|exact H2].
Defined.
